(** * Admin dashboard front end: session handling, HTTP interceptors and
      listing actions

    A shallow embedding of [src/context/AuthContext.tsx] (the [AuthProvider]
    component: session storage, the auth handlers and the two axios
    interceptors) and of the listing popovers ([ListingActions] and
    [Options]), followed by the properties established about them.

    React state is a record threaded through every handler; the browser's
    [sessionStorage] is a finite map from keys to strings; each awaited
    call to the remote API is an input of the handler (what the promise
    settles to); everything the code does to the outside world (API calls,
    navigation, toasts, console output) is appended to a trace in program
    order. *)

From Stdlib Require Import ZArith String Ascii DecimalString DecimalZ.
From stdpp Require Import base strings gmap list.

Open Scope string_scope.

(** ** JavaScript values *)

Module Js.

(** The primitive values that flow through the provider ([any] in the
    source): numbers are integers. *)
Inductive Val :=
| VUndefined
| VNull
| VBool (b : bool)
| VNum (n : Z)
| VStr (s : string).

(** [T | null | undefined] for an object type [T]. *)
Inductive Nullable (A : Type) :=
| Undefined
| Null
| Obj (a : A).
Arguments Undefined {A}.
Arguments Null {A}.
Arguments Obj {A} a.

(** JavaScript truthiness: [undefined], [null], [false], [0] and the empty
    string are falsy. *)
Definition truthy (v : Val) : bool :=
  match v with
  | VUndefined | VNull => false
  | VBool b => b
  | VNum n => negb (n =? 0)%Z
  | VStr s => negb (String.eqb s "")
  end.

(** [a || b] *)
Definition or_else (a b : Val) : Val := if truthy a then a else b.

(** [m || d] for an optional string [m] and a string literal [d]. *)
Definition msg_or (m : option string) (d : string) : string :=
  match m with
  | Some s => if String.eqb s "" then d else s
  | None => d
  end.

Definition string_of_Z (n : Z) : string :=
  NilZero.string_of_int (Z.to_int n).

(** String conversion as done by a template literal [`${v}`]. *)
Definition to_string (v : Val) : string :=
  match v with
  | VUndefined => "undefined"
  | VNull => "null"
  | VBool true => "true"
  | VBool false => "false"
  | VNum n => string_of_Z n
  | VStr s => s
  end.

(** [hay.includes(needle)] on strings. *)
Fixpoint includes (needle hay : string) : bool :=
  String.prefix needle hay ||
  match hay with
  | EmptyString => false
  | String _ rest => includes needle rest
  end.

(** [m?.includes(needle)] as a condition: [undefined] is falsy. *)
Definition opt_includes (needle : string) (m : option string) : bool :=
  match m with
  | Some s => includes needle s
  | None => false
  end.

(** Strict equality [v === "literal"]. *)
Definition strict_eq_str (v : Val) (lit : string) : bool :=
  match v with
  | VStr s => String.eqb s lit
  | _ => false
  end.

End Js.

Import Js.

(** ** The auth provider ([AuthContext.tsx]) *)

Module BackendUser.
(** The [user] object of an API response, as read by [setUserSession]. *)
Record t := mk {
  id : Val;
  name : Val;
  email : Val;
  phone : Val;
  profile_picture : Val;
  is_verified : Val;
  role : string;
}.
End BackendUser.

Module CurrentUser.
(** The [currentUser] object built by [setUserSession]; a field that is
    absent from the object reads as [VUndefined]. *)
Record t := mk {
  userId : Val;
  name : Val;
  email : Val;
  phone : Val;
  image : Val;
  otpVerified : Val;
  role : Val;
}.

(** The object with no own property, [{}]. *)
Definition empty : t :=
  mk VUndefined VUndefined VUndefined VUndefined VUndefined VUndefined VUndefined.

(** [{ ...user }] for a possibly null [user]. *)
Definition spread (u : Nullable t) : t :=
  match u with
  | Obj a => a
  | _ => empty
  end.

Definition with_otpVerified (v : Val) (u : t) : t :=
  mk (userId u) (name u) (email u) (phone u) (image u) v (role u).
End CurrentUser.

Module AuthState.
(** The five [useState] cells of [AuthProvider]. *)
Record t := mk {
  user : Nullable CurrentUser.t;
  token : Val;
  role : Val;
  isAuthenticated : bool;
  isLoadingAuth : bool;
}.

(** State on mount: [useState()] without argument is [undefined]. *)
Definition initial : t := mk Undefined VUndefined VUndefined false false.
End AuthState.

Module Auth.

(** [JSON.stringify] and [JSON.parse] at the two types the provider
    serialises: the current-user object and the token string. [None] is a
    [SyntaxError]. *)
Class JsonCodec := {
  stringify_user : CurrentUser.t -> string;
  parse_user : string -> option CurrentUser.t;
  stringify_token : string -> string;
  parse_token : string -> option string;
}.

(** What the provider relies on from JSON: parsing inverts printing and a
    printed value is never the empty string. *)
Record JsonLaws (C : JsonCodec) : Prop := {
  parse_stringify_user : forall u, parse_user (stringify_user u) = Some u;
  parse_stringify_token : forall s, parse_token (stringify_token s) = Some s;
  stringify_user_nonempty : forall u, stringify_user u <> "";
  stringify_token_nonempty : forall s, stringify_token s <> "";
}.

Definition KEY_USER : string := "admin-skymeasures-currentUser".
Definition KEY_TOKEN : string := "admin-skymeasures-token".

(** Calls of the [authApi] module. *)
Inductive ApiCall :=
| GetAuthUser
| Login (email password : Val)
| VerifyOtp (otp email : Val)
| ResendOtp
| ForgotPassword (email : Val)
| ResetPassword (email password otp : Val)
| Logout
| RefreshAccessToken.

Inductive ToastKind := Success | Error | Info.

(** Request configuration of the axios client, as far as the interceptors
    read and write it. *)
Record Config := mkConfig {
  url : string;
  Authorization : Val;
  _retry : bool;
}.

Inductive Event :=
| EvApi (call : ApiCall)
| EvNavigate (path : string)
| EvToast (kind : ToastKind) (lines : list string)
| EvConsole (text : string)
| EvSetItem (key value : string)
| EvRemoveItem (key : string)
| EvSend (config : Config).

Record World := mkWorld {
  auth : AuthState.t;
  sessionStorage : gmap string string;
  trace : list Event;
}.

(** The provider as it mounts: fresh React state, the tab's
    [sessionStorage] as earlier page loads left it. *)
Definition on_mount (storage : gmap string string) : World :=
  mkWorld AuthState.initial storage [].

(** *** Settled promises of the API *)

(** [res.data]: the user may be missing; the token is a string, the type
    [setUserSession] declares for its [authToken]. *)
Record ResData := mkResData {
  data_user : option BackendUser.t;
  data_token : string;
}.

Record ApiResponse := mkApiResponse {
  status : Val;
  message : option string;
  data : option ResData;
}.

(** A rejection of an API call; the field is
    [error?.response?.data?.message]. *)
Record ApiError := mkApiError {
  response_data_message : option string;
}.

Inductive ApiResult :=
| Rejects (e : ApiError)
| Resolves (res : option ApiResponse).

(** What a [catch] clause receives: a rejection of the API or an [Error]
    thrown by the [try] block itself. *)
Inductive Thrown :=
| ThrownApi (e : ApiError)
| ThrownLocal (msg : string).

Definition errorMessage (t : Thrown) : option string :=
  match t with
  | ThrownApi e => response_data_message e
  | ThrownLocal _ => None
  end.

(** [res?.status], [res?.message] *)
Definition res_status (res : option ApiResponse) : Val :=
  match res with Some r => status r | None => VUndefined end.
Definition res_message (res : option ApiResponse) : option string :=
  match res with Some r => message r | None => None end.
(** [res?.data?.user], [res?.data?.token] *)
Definition res_user (res : option ApiResponse) : option BackendUser.t :=
  match res with
  | Some r => match data r with Some d => data_user d | None => None end
  | None => None
  end.

(** [user?.is_verified] as a condition. *)
Definition user_verified (user : option BackendUser.t) : bool :=
  match user with
  | Some u => truthy (BackendUser.is_verified u)
  | None => false
  end.

(** The two roles the provider hands out. *)
Definition is_app_role (v : Val) : Prop := v = VStr "ADMIN" \/ v = VStr "STAFF".

(** A login that fails: the call rejects or answers a falsy [status]. *)
Definition login_fails (r : ApiResult) : bool :=
  match r with
  | Rejects _ => true
  | Resolves res => negb (truthy (res_status res))
  end.

(** *** State setters and effects *)

Definition setUser (u : Nullable CurrentUser.t) (w : World) : World :=
  let a := auth w in
  mkWorld (AuthState.mk u (AuthState.token a) (AuthState.role a)
             (AuthState.isAuthenticated a) (AuthState.isLoadingAuth a))
          (sessionStorage w) (trace w).

Definition setToken (t : Val) (w : World) : World :=
  let a := auth w in
  mkWorld (AuthState.mk (AuthState.user a) t (AuthState.role a)
             (AuthState.isAuthenticated a) (AuthState.isLoadingAuth a))
          (sessionStorage w) (trace w).

Definition setRole (r : Val) (w : World) : World :=
  let a := auth w in
  mkWorld (AuthState.mk (AuthState.user a) (AuthState.token a) r
             (AuthState.isAuthenticated a) (AuthState.isLoadingAuth a))
          (sessionStorage w) (trace w).

Definition setIsAuthenticated (b : bool) (w : World) : World :=
  let a := auth w in
  mkWorld (AuthState.mk (AuthState.user a) (AuthState.token a) (AuthState.role a)
             b (AuthState.isLoadingAuth a))
          (sessionStorage w) (trace w).

Definition setIsLoadingAuth (b : bool) (w : World) : World :=
  let a := auth w in
  mkWorld (AuthState.mk (AuthState.user a) (AuthState.token a) (AuthState.role a)
             (AuthState.isAuthenticated a) b)
          (sessionStorage w) (trace w).

Definition setItem (k v : string) (w : World) : World :=
  mkWorld (auth w) (<[k := v]> (sessionStorage w)) (trace w ++ [EvSetItem k v]).

Definition removeItem (k : string) (w : World) : World :=
  mkWorld (auth w) (delete k (sessionStorage w)) (trace w ++ [EvRemoveItem k]).

Definition getItem (k : string) (w : World) : option string :=
  sessionStorage w !! k.

Definition emit (e : Event) (w : World) : World :=
  mkWorld (auth w) (sessionStorage w) (trace w ++ [e]).

(** The paths navigated to, in order. *)
Definition navigations (t : list Event) : list string :=
  omap (fun e => match e with EvNavigate p => Some p | _ => None end) t.

Definition navigate (path : string) : World -> World := emit (EvNavigate path).
Definition toast (k : ToastKind) (lines : list string) : World -> World :=
  emit (EvToast k lines).
Definition call (c : ApiCall) : World -> World := emit (EvApi c).

(** A string read from storage used as a condition: [null] (absent) and
    the empty string are falsy. *)
Definition item_truthy (o : option string) : bool :=
  match o with
  | Some s => negb (String.eqb s "")
  | None => false
  end.

Section Provider.

Context {codec : JsonCodec}.

(** [routes.LOGIN] of ["@/constants"]. *)
Variable routes_LOGIN : string.

(** [setUserSession(user, authToken)] *)
Definition currentUser_of (user : BackendUser.t) : CurrentUser.t :=
  CurrentUser.mk
    (BackendUser.id user)
    (BackendUser.name user)
    (BackendUser.email user)
    (BackendUser.phone user)
    (BackendUser.profile_picture user)
    (or_else (BackendUser.is_verified user) (VBool false))
    (VStr (if includes "admin" (BackendUser.role user) then "ADMIN" else "STAFF")).

Definition setUserSession (user : BackendUser.t) (authToken : string)
    (w : World) : CurrentUser.t * World :=
  let currentUser := currentUser_of user in
  let w := setToken (VStr authToken) w in
  let w := setUser (Obj currentUser) w in
  let w := setRole (CurrentUser.role currentUser) w in
  let w := setItem KEY_USER (stringify_user currentUser) w in
  let w := setItem KEY_TOKEN (stringify_token authToken) w in
  (currentUser, w).

(** The [try] block of [fetchUser]: [inr w] when it throws, with the
    world as it is at the throw. Reading [res.data] of a response without
    data, or a field of an absent user, is a [TypeError]. *)
Definition fetchUser_try (r : ApiResult) (w : World) : World + World :=
  match r with
  | Rejects _ => inr w
  | Resolves res =>
      if negb (truthy (res_status res)) then inr w
      else
        match res with
        | None => inr w
        | Some res =>
            match data res with
            | None => inr w
            | Some d =>
                match data_user d with
                | None => inr w
                | Some user =>
                    let '(currentUser, w) :=
                      setUserSession user (data_token d) w in
                    if negb (truthy (CurrentUser.otpVerified currentUser))
                    then inl (navigate "/verify-otp" w)
                    else inl (navigate "/dashboard" w)
                end
            end
        end
  end.

(** The [catch] block of [fetchUser]. A [JSON.parse] that throws leaves
    the promise rejected and nothing set. *)
Definition fetchUser_catch (w : World) : World :=
  let storedUser := getItem KEY_USER w in
  let token := getItem KEY_TOKEN w in
  if item_truthy storedUser && item_truthy token then
    match storedUser, token with
    | Some storedUser, Some token =>
        match parse_user storedUser with
        | None => w
        | Some currentUser =>
            match parse_token token with
            | None => w
            | Some t =>
                let w := setToken (VStr t) w in
                let w := setUser (Obj currentUser) w in
                setRole (CurrentUser.role currentUser) w
            end
        end
    | _, _ => w
    end
  else
    let w := setToken VNull w in
    let w := setUser Null w in
    setRole VNull w.

(** Whether the [try] block of [fetchUser] throws: the call rejects, the
    response has a falsy [status], or it carries no user. *)
Definition fetch_throws (r : ApiResult) : bool :=
  match r with
  | Rejects _ => true
  | Resolves res =>
      negb (truthy (res_status res)) ||
      match res_user res with Some _ => false | None => true end
  end.

(** The mount effect: [fetchUser()]. *)
Definition fetchUser (r : ApiResult) (w : World) : World :=
  let w := call GetAuthUser w in
  match fetchUser_try r w with
  | inl w => w
  | inr w => fetchUser_catch w
  end.

(** *** handleLogin *)

Definition handleLogin_try (r : ApiResult) (w : World) : World + Thrown * World :=
  match r with
  | Rejects e => inr (ThrownApi e, w)
  | Resolves res =>
      if negb (truthy (res_status res))
      then inr (ThrownLocal (msg_or (res_message res) "Error Signing in"), w)
      else
        let user := res_user res in
        let w :=
          match res with
          | Some r =>
              match data r with
              | Some d =>
                  match data_user d with
                  | Some user => snd (setUserSession user (data_token d) w)
                  | None => w
                  end
              | None => w
              end
          | None => w
          end in
        if negb (user_verified user) then
          let w := navigate "/verify-otp" w in
          inl (toast Success
                 [msg_or (res_message res) "Login successful. Please verify OTP."] w)
        else
          let w := toast Success [msg_or (res_message res) "Login successful."] w in
          inl (navigate "/dashboard" w)
  end.

Definition handleLogin_catch (error : Thrown) (w : World) : World :=
  let errorMessage := errorMessage error in
  let message := "Error signing in" in
  let w := emit (EvConsole "TEST") w in
  let message :=
    if opt_includes "These credentials do not match our records" errorMessage
    then match errorMessage with Some m => m | None => message end
    else if opt_includes "Bad Credentials" errorMessage
    then "Incorrect password"
    else message in
  let w := setToken VNull w in
  let w := setUser Null w in
  let w := setRole VNull w in
  toast Error [msg_or errorMessage message; message] w.

Definition handleLogin (email password : Val) (r : ApiResult) (w : World) : World :=
  if negb (truthy email) || negb (truthy password) then w
  else
    let w := setIsLoadingAuth true w in
    let w := call (Login email password) w in
    let w :=
      match handleLogin_try r w with
      | inl w => w
      | inr (error, w) => handleLogin_catch error w
      end in
    setIsLoadingAuth false w.

(** *** handleVerifyOtp: the second component is the message of the
    [Error] the handler rethrows, if any. *)

Definition handleVerifyOtp (otp email : Val) (r : ApiResult) (w : World)
    : World * option string :=
  if negb (truthy otp) || negb (truthy email) then (w, None)
  else
    let w := setIsLoadingAuth true w in
    let w := call (VerifyOtp otp email) w in
    let thrown :=
      match r with
      | Rejects e => Some (ThrownApi e)
      | Resolves res =>
          if negb (truthy (res_status res))
          then Some (ThrownLocal (msg_or (res_message res) "OTP verification failed"))
          else None
      end in
    match thrown with
    | None =>
        let updatedUser :=
          CurrentUser.with_otpVerified (VBool true)
            (CurrentUser.spread (AuthState.user (auth w))) in
        let w := setItem KEY_USER (stringify_user updatedUser) w in
        let w := setUser (Obj updatedUser) w in
        let w := toast Success
                   ["OTP verified successfully. Redirecting to dashboard..."] w in
        let w := navigate "/dashboard" w in
        (setIsLoadingAuth false w, None)
    | Some error =>
        let errorMessage := errorMessage error in
        let w := toast Error
                   [msg_or errorMessage "Failed to verify OTP. Please try again."] w in
        (setIsLoadingAuth false w,
         Some (msg_or errorMessage "Failed to verify OTP."))
    end.

(** *** handleResendOtp, handleForgotPassword, handleResetPassword *)

Definition settled_error (r : ApiResult) (fallback : string) : option Thrown :=
  match r with
  | Rejects e => Some (ThrownApi e)
  | Resolves res =>
      if negb (truthy (res_status res))
      then Some (ThrownLocal (msg_or (res_message res) fallback))
      else None
  end.

Definition handleResendOtp (email : Val) (r : ApiResult) (w : World) : World :=
  if negb (truthy email) then w
  else
    let w := call ResendOtp w in
    match settled_error r "Failed to resend OTP" with
    | None => toast Success ["OTP resent successfully"] w
    | Some error => toast Error [msg_or (errorMessage error) "Failed to resend OTP"] w
    end.

Definition handleForgotPassword (email : Val) (r : ApiResult) (w : World) : World :=
  if negb (truthy email) then w
  else
    let w := setIsLoadingAuth true w in
    let w := call (ForgotPassword email) w in
    let w :=
      match settled_error r "Error sending reset OTP" with
      | None =>
          let res := match r with Resolves res => res | Rejects _ => None end in
          let w := toast Success
                     [msg_or (res_message res)
                        "Password reset OTP has been sent successfully"] w in
          navigate "/change-password" w
      | Some error =>
          toast Error [msg_or (errorMessage error) "Error sending reset OTP"] w
      end in
    setIsLoadingAuth false w.

Definition handleResetPassword (email password otp : Val) (r : ApiResult)
    (w : World) : World :=
  if negb (truthy email) || negb (truthy password) || negb (truthy otp) then w
  else
    let w := setIsLoadingAuth true w in
    let w := call (ResetPassword email password otp) w in
    let w :=
      match settled_error r "Failed to reset password" with
      | None =>
          let w := toast Success ["Password reset successful"] w in
          navigate "/change-password/success" w
      | Some error =>
          toast Error [msg_or (errorMessage error) "Failed to reset password"] w
      end in
    setIsLoadingAuth false w.

(** *** handleLogout: [logout_ok] tells whether [authApi.logout()]
    resolved. *)
Definition handleLogout (logout_ok : bool) (w : World) : World :=
  let w := call Logout w in
  if logout_ok then
    let w := setToken VNull w in
    let w := setUser Null w in
    let w := setRole VNull w in
    let w := setIsAuthenticated false w in
    let w := removeItem KEY_USER w in
    let w := removeItem KEY_TOKEN w in
    let w := toast Success ["Logged out successfully"] w in
    navigate routes_LOGIN w
  else
    toast Error ["Something went wrong"; "Failed to log out"] w.

End Provider.

(** *** The axios interceptors *)

(** [api.interceptors.request.use]: the closure reads the [token] of the
    render that installed it. *)
Definition requestInterceptor (token : Val) (config : Config) : Config :=
  mkConfig (url config)
    (if negb (_retry config) && truthy token
     then VStr ("Bearer " ++ to_string token)
     else Authorization config)
    (_retry config).

(** [error.response] of a failed request: absent when no response was
    received. *)
Record Response := mkResponse {
  resp_status : Z;
  resp_message : Val;
}.

Record AxiosError := mkAxiosError {
  config : Config;
  response : option Response;
}.

(** What [authApi.refreshAccessToken()] settles to; the resolved value may
    lack [data], and [data] may lack [accessToken] (then [VUndefined]). *)
Record RefreshResponse := mkRefreshResponse {
  refresh_data : option Val;
}.

Inductive RefreshResult :=
| RefreshRejects
| RefreshResolves (response : option RefreshResponse).

(** [response.data?.accessToken] *)
Definition accessToken (response : RefreshResponse) : Val :=
  match refresh_data response with
  | Some t => t
  | None => VUndefined
  end.

(** What the rejection handler returns: the promise of the re-issued
    request, or a rejection. *)
Inductive Outcome :=
| Reissue (originalRequest : Config)
| Reject (error : AxiosError).

(** [error?.response?.status === 403 && error?.response?.message === "Unauthorized"] *)
Definition is_unauthorized (error : AxiosError) : bool :=
  match response error with
  | Some r => (resp_status r =? 403)%Z && strict_eq_str (resp_message r) "Unauthorized"
  | None => false
  end.

(** [originalRequest._retry = true]: [originalRequest] is [error.config]
    itself, so the assignment shows in [error]. *)
Definition mark_retry (error : AxiosError) : AxiosError :=
  let c := config error in
  mkAxiosError (mkConfig (url c) (Authorization c) true) (response error).

(** The rejection handler of [api.interceptors.response.use]. The refresh
    call is made only when the condition holds; [refresh] is what it
    settles to. *)
Definition refreshInterceptor (refresh : RefreshResult) (error : AxiosError)
    (w : World) : World * Outcome :=
  if is_unauthorized error then
    let error := mark_retry error in
    let originalRequest := config error in
    let w := call RefreshAccessToken w in
    match refresh with
    | RefreshResolves (Some response) =>
        let w := setToken (accessToken response) w in
        let originalRequest :=
          mkConfig (url originalRequest)
            (VStr ("Bearer " ++ to_string (accessToken response)))
            (_retry originalRequest) in
        (w, Reissue originalRequest)
    | _ =>
        let w := emit (EvConsole "Failed to refresh token:") w in
        (w, Reject error)
    end
  else (w, Reject error).

(** What the transport answers to one attempt. *)
Inductive Reply :=
| Fulfilled (body : string)
| Failed (response : option Response).

Inductive Result :=
| Ok (body : string)
| Err (error : AxiosError)
| Pending.

(** [api.request(config)]: the request interceptor, the transport, then the
    response interceptors; a re-issued request runs the same pipeline
    again. [server n] answers the [n]-th attempt and [refresh n] settles
    the refresh call made after it. [fuel] bounds the number of attempts;
    [Pending] is a request still in flight when it runs out. *)
Fixpoint api_request (fuel : nat) (server : nat -> Config -> Reply)
    (refresh : nat -> RefreshResult) (attempt : nat) (config : Config)
    (w : World) : World * Result :=
  match fuel with
  | O => (w, Pending)
  | S fuel =>
      let config := requestInterceptor (AuthState.token (auth w)) config in
      let w := emit (EvSend config) w in
      match server attempt config with
      | Fulfilled body => (w, Ok body)
      | Failed response =>
          match refreshInterceptor (refresh attempt) (mkAxiosError config response) w with
          | (w, Reject error) => (w, Err error)
          | (w, Reissue originalRequest) =>
              api_request fuel server refresh (S attempt) originalRequest w
          end
      end
  end.

(** Number of refresh calls, and of requests sent, in a trace. *)
Definition is_refresh (e : Event) : bool :=
  match e with EvApi RefreshAccessToken => true | _ => false end.
Definition is_send (e : Event) : bool :=
  match e with EvSend _ => true | _ => false end.
Definition refresh_count (t : list Event) : nat := length (List.filter is_refresh t).
Definition send_count (t : list Event) : nat := length (List.filter is_send t).

(** A response object that passes the test of the rejection handler: it
    carries "Unauthorized" as its own [message]. A transport that hands it
    out for the attempts before the [k]-th and fulfils that one, and a
    refresh endpoint that always hands out the token [t]. *)
Definition unauthorized : Response := mkResponse 403 (VStr "Unauthorized").

Definition unauthorized_until (k : nat) : nat -> Config -> Reply :=
  fun attempt _ => if Nat.ltb attempt k then Failed (Some unauthorized) else Fulfilled "ok".

Definition refresh_gives (t : string) : nat -> RefreshResult :=
  fun _ => RefreshResolves (Some (mkRefreshResponse (Some (VStr t)))).

(** *** What the client receives

    An HTTP answer with an error status, as the server sends it: the status
    of the status line and the [message] of its JSON body. *)
Record HttpAnswer := mkHttpAnswer {
  http_status : Z;
  body_message : Val;
}.

(** [error.response] as axios builds it from such an answer: an object
    with [data], [status], [statusText], [headers], [config] and [request].
    The body, and with it the server's message, is under [data]; that is
    where the [catch] blocks of the handlers read it
    ([error?.response?.data?.message]). The object has no [message] of its
    own, so [error.response.message], which the rejection handler tests, is
    [undefined] whatever the server said. *)
Definition axios_response (a : HttpAnswer) : Response :=
  mkResponse (http_status a) VUndefined.

(** What the network does with one attempt: a success, an answer with an
    error status, or no answer at all. *)
Inductive HttpReply :=
| HttpOk (body : string)
| HttpError (a : HttpAnswer)
| NoResponse.

(** The transport of the axios client over such a network. *)
Definition axios_transport (answers : nat -> Config -> HttpReply)
    : nat -> Config -> Reply :=
  fun attempt config =>
    match answers attempt config with
    | HttpOk body => Fulfilled body
    | HttpError a => Failed (Some (axios_response a))
    | NoResponse => Failed None
    end.

(** A server that answers every attempt 403 with the body
    [{"message": "Unauthorized"}]. *)
Definition always_403_unauthorized : nat -> Config -> HttpReply :=
  fun _ _ => HttpError (mkHttpAnswer 403 (VStr "Unauthorized")).

End Auth.

(** ** The listing popovers ([ListingActions] and [Options]) *)

Module Listing.

Inductive ModalState := Closed | Edit | Details.

(** Effects of the two components, in program order. [EvLoading] records
    each value [setLoadingStates] commits. *)
Inductive Event :=
| EvMutate (propertyId : Val) (type : string)
| EvToast (kind : Auth.ToastKind) (text : string)
| EvLoading (states : list (option bool)).

(** Component state: [openModal] belongs to [ListingActions] (and is what
    [Options] reaches through its [setOpenModal] prop); an array slot that
    was never written is [None]. *)
Record View := mkView {
  openModal : ModalState;
  loadingStates : list (option bool);
  trace : list Event;
}.

Record Item := mkItem {
  label : string;
  showLoader : bool;
}.

Definition dropdownList : list Item :=
  [ mkItem "Approve" true;
    mkItem "Reject" true;
    mkItem "View details" false;
    mkItem "Delete" true ].

Definition options : list Item :=
  [ mkItem "Approve" true;
    mkItem "Reject" true;
    mkItem "Edit" false;
    mkItem "Flag" true;
    mkItem "Delete" true ].

(** [list.map(() => false)] *)
Definition initial_loading (l : list Item) : list (option bool) :=
  map (fun _ => Some false) l.

Definition initial (l : list Item) : View :=
  mkView Closed (initial_loading l) [].

(** [newStates[idx] = v] on a copy of [prev]: a write past the end grows
    the array, leaving holes. *)
Definition array_set (idx : nat) (v : bool) (prev : list (option bool))
    : list (option bool) :=
  if decide (idx < length prev) then <[idx := Some v]> prev
  else prev ++ replicate (idx - length prev) None ++ [Some v].

Definition emit (e : Event) (v : View) : View :=
  mkView (openModal v) (loadingStates v) (trace v ++ [e]).

Definition setOpenModal (m : ModalState) (v : View) : View :=
  mkView m (loadingStates v) (trace v).

Definition setLoadingStates (f : list (option bool) -> list (option bool))
    (v : View) : View :=
  let next := f (loadingStates v) in
  emit (EvLoading next) (mkView (openModal v) next (trace v)).

(** How a handler ends. *)
Inductive Completion := Returned | Threw.

(** What [publishUnpublishMutation.mutateAsync] settles to. *)
Inductive Mutation := MutationResolves | MutationRejects.

(** A handler, given the row's [data] (its [id], if there is a row) and
    the outcome of the mutation it may await. *)
Definition Handler := option Val -> Mutation -> View -> View * Completion.

(** The body shared by the two mutating handlers of [ListingActions];
    destructuring an absent [data] is a [TypeError]. *)
Definition mutate_then_toast (type text : string) : Handler :=
  fun data m v =>
    match data with
    | None => (v, Threw)
    | Some id =>
        let v := emit (EvMutate id type) v in
        match m with
        | MutationRejects => (v, Threw)
        | MutationResolves => (emit (EvToast Auth.Success text) v, Returned)
        end
    end.

Module ListingActions.
Definition onClickHandlers (idx : nat) : option Handler :=
  match idx with
  | 0 => Some (mutate_then_toast "publish" "Property published successfully")
  | 1 => Some (fun _ _ v => (emit (EvToast Auth.Info "Property rejected") v, Returned))
  | 2 => Some (fun _ _ v => (setOpenModal Details v, Returned))
  | 3 => Some (mutate_then_toast "unpublish" "Property deleted successfully")
  | _ => None
  end.
End ListingActions.

Module Options.
(** [has_setOpenModal]: whether the optional prop was passed. *)
Definition onClickHandlers (has_setOpenModal : bool) (idx : nat) : option Handler :=
  match idx with
  | 0 => Some (fun _ _ v => (v, Returned))
  | 1 => Some (fun _ _ v => (v, Returned))
  | 2 => Some (fun _ _ v =>
                 (if has_setOpenModal then setOpenModal Edit v else v, Returned))
  | 3 => Some (fun _ _ v => (v, Returned))
  | 4 => Some (fun _ _ v => (v, Returned))
  | _ => None
  end.
End Options.

(** [handleItemClick(idx, showLoader)], the same text in both components,
    over the component's own handler table. *)
Definition handleItemClick (onClickHandlers : nat -> option Handler)
    (data : option Val) (m : Mutation) (idx : nat) (showLoader : bool)
    (v : View) : View * Completion :=
  match onClickHandlers idx with
  | None => (v, Returned)
  | Some handler =>
      let v := if showLoader then setLoadingStates (array_set idx true) v else v in
      let '(v, c) := handler data m v in
      let v := if showLoader then setLoadingStates (array_set idx false) v else v in
      (v, c)
  end.

(** A click on entry [idx] of the rendered list: the item's own
    [showLoader] is passed along. *)
Definition click (items : list Item) (onClickHandlers : nat -> option Handler)
    (data : option Val) (m : Mutation) (idx : nat) (v : View)
    : View * Completion :=
  match items !! idx with
  | Some item => handleItemClick onClickHandlers data m idx (showLoader item) v
  | None => (v, Returned)
  end.

(** The two popovers: the row dropdown of [ListingActions] and the
    dropdown of the details modal, [Options] (with or without its optional
    [setOpenModal] prop). *)
Inductive Component :=
| RowDropdown
| DetailsDropdown (has_setOpenModal : bool).

Definition items (c : Component) : list Item :=
  match c with
  | RowDropdown => dropdownList
  | DetailsDropdown _ => options
  end.

Definition handlers (c : Component) : nat -> option Handler :=
  match c with
  | RowDropdown => ListingActions.onClickHandlers
  | DetailsDropdown has_setOpenModal => Options.onClickHandlers has_setOpenModal
  end.

(** A sequence of clicks on one popover, each run to its end: for each, the
    index, the row's [data] and what the mutation settles to. *)
Definition clicks (c : Component) (l : list (nat * option Val * Mutation))
    (v : View) : View :=
  fold_left
    (fun v '(idx, data, m) => fst (click (items c) (handlers c) data m idx v))
    l v.

Definition is_mutate (e : Event) : bool :=
  match e with EvMutate _ _ => true | _ => false end.

Definition is_loading (e : Event) : bool :=
  match e with EvLoading _ => true | _ => false end.

(** The API requests in a trace. *)
Definition requests (t : list Event) : list Event := List.filter is_mutate t.

(** A handler that only appends to the trace and never touches the
    loading flags. *)
Definition quiet (h : Handler) : Prop :=
  forall data m v,
    loadingStates (fst (h data m v)) = loadingStates v /\
    exists evs,
      trace (fst (h data m v)) = (trace v ++ evs)%list /\
      Forall (fun e => is_loading e = false) evs.

End Listing.

(** ** A serialiser to run the model with

    [JSON.stringify]/[JSON.parse] belong to the platform; the provider only
    needs the laws of [Auth.JsonLaws]. This instance writes a user as its
    seven fields, each escaped and closed by a comma, so that the
    definitions above can be evaluated on concrete sessions. *)

Module FieldCodec.

Definition special (c : ascii) : bool :=
  Ascii.eqb c "\" || Ascii.eqb c ",".

Fixpoint escape (s : string) : string :=
  match s with
  | EmptyString => EmptyString
  | String c r =>
      if special c then String "\" (String c (escape r))
      else String c (escape r)
  end.

Fixpoint join (l : list string) : string :=
  match l with
  | [] => EmptyString
  | f :: l => escape f ++ String "," (join l)
  end.

Fixpoint split (acc s : string) : list string :=
  match s with
  | EmptyString => []
  | String c r =>
      if Ascii.eqb c "," then acc :: split EmptyString r
      else if Ascii.eqb c "\" then
        match r with
        | String d r' => split (acc ++ String d EmptyString) r'
        | EmptyString => []
        end
      else split (acc ++ String c EmptyString) r
  end.

Definition print_val (v : Val) : string :=
  match v with
  | VUndefined => "u"
  | VNull => "n"
  | VBool true => "t"
  | VBool false => "f"
  | VNum n => String "#" (string_of_Z n)
  | VStr s => String "$" s
  end.

Definition parse_val (s : string) : option Val :=
  match s with
  | String c r =>
      if Ascii.eqb c "#" then option_map (fun d => VNum (Z.of_int d)) (NilZero.int_of_string r)
      else if Ascii.eqb c "$" then Some (VStr r)
      else match r with
           | EmptyString =>
               if Ascii.eqb c "u" then Some VUndefined
               else if Ascii.eqb c "n" then Some VNull
               else if Ascii.eqb c "t" then Some (VBool true)
               else if Ascii.eqb c "f" then Some (VBool false)
               else None
           | _ => None
           end
  | EmptyString => None
  end.

Definition fields (u : CurrentUser.t) : list Val :=
  [ CurrentUser.userId u; CurrentUser.name u; CurrentUser.email u;
    CurrentUser.phone u; CurrentUser.image u; CurrentUser.otpVerified u;
    CurrentUser.role u ].

Definition of_fields (l : list Val) : option CurrentUser.t :=
  match l with
  | [a; b; c; d; e; f; g] => Some (CurrentUser.mk a b c d e f g)
  | _ => None
  end.

(** [mapM parse_val] *)
Fixpoint parse_vals (l : list string) : option (list Val) :=
  match l with
  | [] => Some []
  | s :: l =>
      match parse_val s, parse_vals l with
      | Some v, Some vs => Some (v :: vs)
      | _, _ => None
      end
  end.

Definition stringify_user (u : CurrentUser.t) : string :=
  join (map print_val (fields u)).

Definition parse_user (s : string) : option CurrentUser.t :=
  match parse_vals (split EmptyString s) with
  | Some l => of_fields l
  | None => None
  end.

Definition stringify_token (s : string) : string := String "$" s.

Definition parse_token (s : string) : option string :=
  match s with
  | String c r => if Ascii.eqb c "$" then Some r else None
  | EmptyString => None
  end.

#[export] Instance codec : Auth.JsonCodec :=
  {| Auth.stringify_user := stringify_user;
     Auth.parse_user := parse_user;
     Auth.stringify_token := stringify_token;
     Auth.parse_token := parse_token |}.

End FieldCodec.

(** ** The provider as a machine

    Everything that can happen to a mounted provider, one action at a time:
    a page load (React state starts afresh, [sessionStorage] survives, the
    mount effect runs), a call of one of the handlers the context hands
    out, or a request through the axios client. *)

Module Machine.
Import Auth.

Inductive Action :=
| Reload (r : ApiResult)
| DoLogin (email password : Val) (r : ApiResult)
| DoVerifyOtp (otp email : Val) (r : ApiResult)
| DoResendOtp (email : Val) (r : ApiResult)
| DoForgotPassword (email : Val) (r : ApiResult)
| DoResetPassword (email password otp : Val) (r : ApiResult)
| DoLogout (logout_ok : bool)
| DoRequest (fuel : nat) (server : nat -> Config -> Reply)
    (refresh : nat -> RefreshResult) (config : Config).

Section WithCodec.

Context {codec : JsonCodec}.
Variable routes_LOGIN : string.

(** A page load in the same tab. *)
Definition reload (r : ApiResult) (w : World) : World :=
  fetchUser r (mkWorld AuthState.initial (sessionStorage w) (trace w)).

Definition step (a : Action) (w : World) : World :=
  match a with
  | Reload r => reload r w
  | DoLogin email password r => handleLogin email password r w
  | DoVerifyOtp otp email r => fst (handleVerifyOtp otp email r w)
  | DoResendOtp email r => handleResendOtp email r w
  | DoForgotPassword email r => handleForgotPassword email r w
  | DoResetPassword email password otp r => handleResetPassword email password otp r w
  | DoLogout logout_ok => handleLogout routes_LOGIN logout_ok w
  | DoRequest fuel server refresh config =>
      fst (api_request fuel server refresh 0 config w)
  end.

Definition run (actions : list Action) (w : World) : World :=
  fold_left (fun w a => step a w) actions w.

(** Neither flag is up. *)
Definition flags_down (w : World) : Prop :=
  AuthState.isAuthenticated (auth w) = false /\
  AuthState.isLoadingAuth (auth w) = false.

(** State and storage agree on the session: what a page load would restore
    is what the provider holds. *)
Definition session_in_sync (w : World) : Prop :=
  exists u t,
    AuthState.user (auth w) = Obj u /\
    AuthState.token (auth w) = VStr t /\
    AuthState.role (auth w) = CurrentUser.role u /\
    getItem KEY_USER w = Some (stringify_user u) /\
    getItem KEY_TOKEN w = Some (stringify_token t).

(** The role values a user object of the provider can carry, and the ones
    the [role] cell can hold. *)
Definition user_role_ok (v : Val) : Prop := v = VUndefined \/ is_app_role v.
Definition role_cell_ok (v : Val) : Prop := v = VNull \/ user_role_ok v.

(** Storage as the provider itself writes it: the user key, when set,
    holds a printed user object with one of the provider's roles. *)
Definition storage_written_by_app (storage : gmap string string) : Prop :=
  forall s, storage !! KEY_USER = Some s ->
            exists u, s = stringify_user u /\ user_role_ok (CurrentUser.role u).

Definition role_invariant (w : World) : Prop :=
  role_cell_ok (AuthState.role (auth w)) /\
  (forall u, AuthState.user (auth w) = Obj u -> user_role_ok (CurrentUser.role u)) /\
  storage_written_by_app (sessionStorage w).

End WithCodec.

(** Which actions leave a session in step: all but a failed login and an
    accepted logout, which drop the state's side of it, and requests, which
    may refresh the token. *)
Definition keeps_session (a : Action) : bool :=
  match a with
  | DoLogin email password r =>
      negb (truthy email && truthy password && login_fails r)
  | DoLogout logout_ok => negb logout_ok
  | DoRequest _ _ _ _ => false
  | _ => true
  end.

(** The requests sent, the toasts shown. *)
Definition sends (t : list Event) : list Config :=
  omap (fun e => match e with EvSend c => Some c | _ => None end) t.

Definition toasts (t : list Event) : list (ToastKind * list string) :=
  omap (fun e => match e with EvToast k l => Some (k, l) | _ => None end) t.

Definition api_calls (t : list Event) : list ApiCall :=
  omap (fun e => match e with EvApi c => Some c | _ => None end) t.


(** A sample backend user, and a provider holding her session, to run the
    model on. *)
Definition ada : BackendUser.t :=
  BackendUser.mk (VNum 7) (VStr "Ada") (VStr "ada@example.com") (VStr "0800")
    VNull (VBool true) "super-admin".

Definition signed_in : World :=
  snd (setUserSession (codec := FieldCodec.codec) ada "tok-1" (on_mount ∅)).

End Machine.

(** * Properties *)

(** ** The serialiser satisfies the JSON laws *)

Module FieldCodecFacts.
Import FieldCodec.

Lemma app_cons (c : ascii) (a b : string) : String c a ++ b = String c (a ++ b).
Proof. reflexivity. Qed.

Lemma app_nil (b : string) : EmptyString ++ b = b.
Proof. reflexivity. Qed.

Lemma append_cons_assoc (a : string) (c : ascii) (b : string) :
  (a ++ String c EmptyString) ++ b = a ++ String c b.
Proof.
  induction a as [|x a IH]; [reflexivity|].
  now rewrite !app_cons, IH.
Qed.

Lemma append_empty_r (a : string) : a ++ EmptyString = a.
Proof.
  induction a as [|x a IH]; [reflexivity|].
  now rewrite app_cons, IH.
Qed.

Lemma split_escape (f : string) : forall acc rest,
  split acc (escape f ++ String "," rest) = (acc ++ f) :: split EmptyString rest.
Proof.
  induction f as [|c f IH]; intros acc rest.
  - simpl escape. rewrite app_nil, append_empty_r. reflexivity.
  - simpl escape. destruct (special c) eqn:Hs; unfold special in Hs.
    + rewrite !app_cons. simpl split.
      rewrite IH, append_cons_assoc. reflexivity.
    + apply orb_false_iff in Hs as [H1 H2].
      rewrite app_cons. simpl split. rewrite H2, H1.
      rewrite IH, append_cons_assoc. reflexivity.
Qed.

Lemma split_join (l : list string) : split EmptyString (join l) = l.
Proof.
  induction l as [|f l IH]; [reflexivity|].
  simpl join. rewrite split_escape, IH. reflexivity.
Qed.

Lemma to_uint_not_nil (p : positive) : Pos.to_uint p <> Decimal.Nil.
Proof.
  intros H. pose proof (DecimalPos.Unsigned.of_to p) as E.
  rewrite H in E. discriminate E.
Qed.

Lemma parse_print_val (v : Val) : parse_val (print_val v) = Some v.
Proof.
  destruct v as [| |[|]|n|s]; try reflexivity.
  simpl. unfold string_of_Z. rewrite NilZero.isi.
  - simpl. now rewrite DecimalZ.of_to.
  - destruct n; simpl; try discriminate.
    intros [= H]. now apply to_uint_not_nil in H.
  - destruct n; simpl; try discriminate.
    intros [= H]. now apply to_uint_not_nil in H.
Qed.

Lemma parse_print_vals (l : list Val) : parse_vals (map print_val l) = Some l.
Proof.
  induction l as [|v l IH]; simpl; [reflexivity|].
  now rewrite parse_print_val, IH.
Qed.

Lemma laws : Auth.JsonLaws codec.
Proof.
  split; simpl.
  - intros u. unfold parse_user, stringify_user.
    rewrite split_join, parse_print_vals. now destruct u.
  - reflexivity.
  - intros u. unfold stringify_user. simpl map. simpl join.
    destruct (escape _); discriminate.
  - discriminate.
Qed.

End FieldCodecFacts.

(** ** The request interceptor *)

Module RequestFacts.
Import Auth.

Lemma to_string_str (s : string) : to_string (VStr s) = s.
Proof. reflexivity. Qed.

(** A re-issued request passes the request interceptor untouched, whatever
    token the installing render saw. *)
Lemma requestInterceptor_retry (token : Val) (config : Config) :
  _retry config = true -> requestInterceptor token config = config.
Proof.
  intros H. destruct config as [u a r]. simpl in H. subst r. reflexivity.
Qed.

(** C4. For every outgoing request: when the token of the auth state is
    present (truthy, as the code tests it) and the request is not a retry,
    the interceptor sets the Authorization header to "Bearer <token>"; in
    every other case (no token, or a retried request) the header the
    request already had is left as it was. Nothing else of the request
    changes. *)
Theorem requestInterceptor_attaches_token (token : Val) (config : Config) :
  (_retry config = false -> truthy token = true ->
     Authorization (requestInterceptor token config)
     = VStr ("Bearer " ++ to_string token)) /\
  (forall s, token = VStr s -> s <> "" -> _retry config = false ->
     Authorization (requestInterceptor token config) = VStr ("Bearer " ++ s)) /\
  (_retry config = true \/ truthy token = false ->
     Authorization (requestInterceptor token config) = Authorization config) /\
  url (requestInterceptor token config) = url config /\
  _retry (requestInterceptor token config) = _retry config.
Proof.
  unfold requestInterceptor. simpl. repeat split.
  - intros -> ->. reflexivity.
  - intros s -> Hs ->. simpl.
    destruct (String.eqb_spec s ""); [contradiction | reflexivity].
  - intros [-> | ->]; [reflexivity|].
    now rewrite andb_false_r.
Qed.

Lemma requestInterceptor_attaches_token_witness :
  Authorization (requestInterceptor (VStr "abc") (mkConfig "/listings" VUndefined false))
  = VStr "Bearer abc" /\
  Authorization (requestInterceptor VNull (mkConfig "/listings" (VStr "Bearer old") false))
  = VStr "Bearer old" /\
  Authorization (requestInterceptor (VStr "abc") (mkConfig "/listings" (VStr "Bearer old") true))
  = VStr "Bearer old".
Proof.
  split; [|split].
  - apply (proj1 (requestInterceptor_attaches_token
                    (VStr "abc") (mkConfig "/listings" VUndefined false)));
      reflexivity.
  - apply (proj1 (proj2 (proj2 (requestInterceptor_attaches_token
                    VNull (mkConfig "/listings" (VStr "Bearer old") false))))).
    right. reflexivity.
  - apply (proj1 (proj2 (proj2 (requestInterceptor_attaches_token
                    (VStr "abc") (mkConfig "/listings" (VStr "Bearer old") true))))).
    left. reflexivity.
Defined.

End RequestFacts.

(** ** Guards of the auth handlers *)

Module GuardFacts.
Import Auth.

Section Guards.
Context {codec : JsonCodec}.

(** C8. Each auth handler called with a falsy required argument returns
    at once: the world it returns is the world it was given, so no API
    call, no navigation and no toast entered the trace, and neither the
    auth state nor sessionStorage changed; whatever the API would have
    answered. An OTP of 0 counts as missing. *)
Theorem auth_handlers_return_on_falsy_argument (r : ApiResult) (w : World) :
  (forall email password,
      truthy email = false \/ truthy password = false ->
      handleLogin email password r w = w) /\
  (forall otp email,
      truthy otp = false \/ truthy email = false ->
      handleVerifyOtp otp email r w = (w, None)) /\
  (forall email, truthy email = false -> handleResendOtp email r w = w) /\
  (forall email, truthy email = false -> handleForgotPassword email r w = w) /\
  (forall email password otp,
      truthy email = false \/ truthy password = false \/ truthy otp = false ->
      handleResetPassword email password otp r w = w) /\
  (forall email, handleVerifyOtp (VNum 0) email r w = (w, None)).
Proof.
  repeat split.
  - intros email password [H | H]; unfold handleLogin; rewrite H; simpl;
      [reflexivity | now rewrite orb_true_r].
  - intros otp email [H | H]; unfold handleVerifyOtp; rewrite H; simpl;
      [reflexivity | now rewrite orb_true_r].
  - intros email H. unfold handleResendOtp. now rewrite H.
  - intros email H. unfold handleForgotPassword. now rewrite H.
  - intros email password otp [H | [H | H]]; unfold handleResetPassword;
      rewrite H; simpl; [reflexivity | now rewrite orb_true_r .. ].
Qed.

End Guards.

Lemma auth_handlers_return_on_falsy_argument_witness :
  handleLogin (codec := FieldCodec.codec) (VStr "") (VStr "secret")
    (Resolves None) (on_mount ∅) = (on_mount ∅) /\
  handleVerifyOtp (codec := FieldCodec.codec) (VNum 0) (VStr "a@b.c")
    (Resolves None) (on_mount ∅) = ((on_mount ∅), None) /\
  handleResetPassword (VStr "a@b.c") (VStr "secret") VUndefined
    (Resolves None) (on_mount ∅) = (on_mount ∅).
Proof.
  pose proof (auth_handlers_return_on_falsy_argument
                (codec := FieldCodec.codec) (Resolves None) (on_mount ∅))
    as (Hlogin & Hotp & _ & _ & Hreset & _).
  split; [|split].
  - apply Hlogin. left. reflexivity.
  - apply Hotp. left. reflexivity.
  - apply Hreset. right. right. reflexivity.
Defined.

End GuardFacts.

(** ** The response interceptor and the retry loop *)

Module ResponseFacts.
Import Auth.

Lemma is_unauthorized_iff (error : AxiosError) :
  is_unauthorized error = true <->
  exists r, response error = Some r /\ resp_status r = 403%Z /\
            resp_message r = VStr "Unauthorized".
Proof.
  unfold is_unauthorized. split.
  - destruct (response error) as [r|]; [|discriminate].
    intros H. apply andb_true_iff in H as [H1 H2].
    exists r. split; [reflexivity|]. split; [now apply Z.eqb_eq|].
    destruct (resp_message r) as [| | | |s]; try discriminate.
    simpl in H2. apply String.eqb_eq in H2. now subst.
  - intros (r & -> & -> & ->). reflexivity.
Qed.

Lemma mark_retry_fields (error : AxiosError) :
  url (config (mark_retry error)) = url (config error) /\
  Authorization (config (mark_retry error)) = Authorization (config error) /\
  _retry (config (mark_retry error)) = true /\
  response (mark_retry error) = response error.
Proof. repeat split. Qed.

Lemma mark_retry_of_retry (error : AxiosError) :
  _retry (config error) = true -> mark_retry error = error.
Proof.
  destruct error as [[u a r] resp]. simpl. intros ->. reflexivity.
Qed.

Lemma refresh_count_snoc (t : list Event) (e : Event) :
  refresh_count (t ++ [e]) = refresh_count t + (if is_refresh e then 1 else 0).
Proof.
  unfold refresh_count. rewrite List.filter_app, length_app. simpl.
  destruct (is_refresh e); reflexivity.
Qed.

Lemma send_count_snoc (t : list Event) (e : Event) :
  send_count (t ++ [e]) = send_count t + (if is_send e then 1 else 0).
Proof.
  unfold send_count. rewrite List.filter_app, length_app. simpl.
  destruct (is_send e); reflexivity.
Qed.

(** One unauthorized failure followed by a successful refresh: the loop
    goes round once more with the re-issued request. *)
Lemma api_request_unauthorized_step (fuel : nat) server refresh attempt config w
      (resp : RefreshResponse) :
  let sent := requestInterceptor (AuthState.token (auth w)) config in
  server attempt sent = Failed (Some unauthorized) ->
  refresh attempt = RefreshResolves (Some resp) ->
  api_request (S fuel) server refresh attempt config w
  = api_request fuel server refresh (S attempt)
      (mkConfig (url sent) (VStr ("Bearer " ++ to_string (accessToken resp))) true)
      (setToken (accessToken resp) (call RefreshAccessToken (emit (EvSend sent) w))).
Proof.
  intros sent Hs Hr. simpl. fold sent. rewrite Hs.
  unfold refreshInterceptor. simpl. rewrite Hr. reflexivity.
Qed.

(** The pipeline only ever appends to the trace, and what it appends
    first is the send of the request as the request interceptor left it. *)
Lemma api_request_trace_extends server refresh : forall fuel attempt c w,
  exists rest,
    trace (fst (api_request fuel server refresh attempt c w))
    = (trace w ++ rest)%list.
Proof.
  induction fuel as [|fuel IH]; intros attempt c w.
  - exists []. simpl. now rewrite app_nil_r.
  - simpl. destruct (server attempt _) as [body|r].
    + eexists. reflexivity.
    + unfold refreshInterceptor.
      destruct (is_unauthorized _); [|eexists; reflexivity].
      destruct (refresh attempt) as [|[rr|]];
        try (eexists; simpl; rewrite <- !app_assoc; reflexivity).
      edestruct IH as [rest Hrest]. rewrite Hrest. simpl.
      eexists. rewrite <- !app_assoc. reflexivity.
Qed.

Lemma api_request_sends_first fuel server refresh attempt c w :
  exists rest,
    trace (fst (api_request (S fuel) server refresh attempt c w))
    = (trace w ++ EvSend (requestInterceptor (AuthState.token (auth w)) c)
         :: rest)%list.
Proof.
  simpl. destruct (server attempt _) as [body|r].
  - exists []. reflexivity.
  - unfold refreshInterceptor.
    destruct (is_unauthorized _); [|exists []; reflexivity].
    destruct (refresh attempt) as [|[rr|]];
      try (eexists; simpl; rewrite <- !app_assoc; reflexivity).
    edestruct (api_request_trace_extends server refresh fuel) as [rest Hrest].
    rewrite Hrest. simpl.
    eexists. rewrite <- !app_assoc. reflexivity.
Qed.

Lemma retry_loop (t : string) (k : nat) : forall d attempt config w,
  attempt + d = k ->
  let out := api_request (S d) (unauthorized_until k) (refresh_gives t)
               attempt config w in
  snd out = Ok "ok" /\
  refresh_count (trace (fst out)) = refresh_count (trace w) + d /\
  send_count (trace (fst out)) = send_count (trace w) + S d.
Proof.
  induction d as [|d IH]; intros attempt config w Hk.
  - assert (attempt = k) as -> by lia.
    simpl. unfold unauthorized_until. rewrite Nat.ltb_irrefl. simpl.
    rewrite refresh_count_snoc, send_count_snoc. simpl. repeat split; lia.
  - cbv zeta.
    rewrite (api_request_unauthorized_step (S d) _ _ attempt config w
               (mkRefreshResponse (Some (VStr t)))).
    + specialize (IH (S attempt)). cbv zeta in IH.
      match goal with
      | |- context [api_request (S d) _ _ (S attempt) ?c ?w'] =>
          destruct (IH c w' ltac:(lia)) as (H1 & H2 & H3)
      end.
      rewrite H1, H2, H3. simpl trace.
      rewrite !refresh_count_snoc, !send_count_snoc. simpl.
      repeat split; lia.
    + unfold unauthorized_until.
      destruct (Nat.ltb_spec attempt k); [reflexivity | lia].
    + reflexivity.
Qed.

(** The branch behind the handler's test does not count its retries: the
    handler sets [_retry] on the request it re-issues but never reads it. On
    a transport whose response objects pass the test for the first [k]
    attempts, the request is sent [k + 1] times and the token refreshed [k]
    times. *)
Lemma unauthorized_answer_always_refreshes (t : string) (k : nat)
    (config : Config) (w : World) :
  let out := api_request (S k) (unauthorized_until k) (refresh_gives t)
               0 config w in
  snd out = Ok "ok" /\
  refresh_count (trace (fst out)) = refresh_count (trace w) + k /\
  send_count (trace (fst out)) = send_count (trace w) + S k.
Proof. apply retry_loop. reflexivity. Qed.

(** Two response objects in a row that pass the test: two refreshes, three
    sends, the last two of them marked [_retry]. *)
Example second_unauthorized_answer_refreshes_again :
  let out := api_request 3 (unauthorized_until 2) (refresh_gives "t2") 0
               (mkConfig "/listings" VUndefined false) (on_mount ∅) in
  snd out = Ok "ok" /\
  trace (fst out) =
    [ EvSend (mkConfig "/listings" VUndefined false);
      EvApi RefreshAccessToken;
      EvSend (mkConfig "/listings" (VStr "Bearer t2") true);
      EvApi RefreshAccessToken;
      EvSend (mkConfig "/listings" (VStr "Bearer t2") true) ].
Proof. split; reflexivity. Qed.

(** The rejection handler, branch by branch. On an error whose response
    object passes the test (status 403 and an own [message] "Unauthorized")
    the handler calls the refresh endpoint; when that resolves it stores the
    new token in the auth state, sets the original request's Authorization
    header to "Bearer <new token>", marks the request [_retry] and re-issues
    it, and the re-issued request is sent with exactly that header. An error
    that does not pass the test is rejected unchanged, with no refresh call.
    When the refresh call fails, the original error is rejected with its
    request configuration marked [_retry = true] and otherwise as it was,
    and the auth state is left alone. *)
Lemma refreshInterceptor_spec (refresh : RefreshResult) (error : AxiosError)
    (w : World) :
  (forall resp,
      is_unauthorized error = true ->
      refresh = RefreshResolves (Some resp) ->
      let reissued :=
        mkConfig (url (config error))
          (VStr ("Bearer " ++ to_string (accessToken resp))) true in
      let w' := fst (refreshInterceptor refresh error w) in
      snd (refreshInterceptor refresh error w) = Reissue reissued /\
      AuthState.token (auth w') = accessToken resp /\
      w' = setToken (accessToken resp) (call RefreshAccessToken w) /\
      forall fuel server refresh' attempt,
        exists rest,
          trace (fst (api_request (S fuel) server refresh' attempt reissued w'))
          = (trace w' ++ EvSend reissued :: rest)%list) /\
  (is_unauthorized error = false ->
      refreshInterceptor refresh error w = (w, Reject error)) /\
  (is_unauthorized error = true ->
      refresh = RefreshRejects \/ refresh = RefreshResolves None ->
      snd (refreshInterceptor refresh error w) = Reject (mark_retry error) /\
      auth (fst (refreshInterceptor refresh error w)) = auth w /\
      sessionStorage (fst (refreshInterceptor refresh error w)) = sessionStorage w /\
      url (config (mark_retry error)) = url (config error) /\
      Authorization (config (mark_retry error)) = Authorization (config error) /\
      _retry (config (mark_retry error)) = true /\
      response (mark_retry error) = response error).
Proof.
  split; [|split].
  - intros resp Hu -> reissued w'.
    assert (refreshInterceptor (RefreshResolves (Some resp)) error w
            = (setToken (accessToken resp) (call RefreshAccessToken w),
               Reissue reissued)) as E.
    { unfold refreshInterceptor. rewrite Hu. reflexivity. }
    subst w'. rewrite E. simpl fst. simpl snd.
    repeat split.
    intros fuel server refresh' attempt.
    destruct (api_request_sends_first fuel server refresh' attempt reissued
                (setToken (accessToken resp) (call RefreshAccessToken w)))
      as [rest Hrest].
    exists rest.
    now rewrite RequestFacts.requestInterceptor_retry in Hrest.
  - intros Hu. unfold refreshInterceptor. now rewrite Hu.
  - intros Hu Hr. unfold refreshInterceptor. rewrite Hu.
    destruct Hr as [-> | ->]; repeat split.
Qed.

Lemma refreshInterceptor_spec_witness :
  let error := mkAxiosError (mkConfig "/listings" (VStr "Bearer old") false)
                 (Some unauthorized) in
  snd (refreshInterceptor
         (RefreshResolves (Some (mkRefreshResponse (Some (VStr "new")))))
         error (on_mount ∅))
  = Reissue (mkConfig "/listings" (VStr "Bearer new") true) /\
  snd (refreshInterceptor RefreshRejects error (on_mount ∅))
  = Reject (mark_retry error).
Proof.
  intros error. split.
  - apply (proj1 (refreshInterceptor_spec
                    (RefreshResolves (Some (mkRefreshResponse (Some (VStr "new")))))
                    error (on_mount ∅))
             (mkRefreshResponse (Some (VStr "new")))); reflexivity.
  - apply (proj2 (proj2 (refreshInterceptor_spec RefreshRejects error (on_mount ∅))));
      [reflexivity | left; reflexivity].
Defined.

(** *** On the answers the client receives *)

Lemma axios_response_never_matches (config : Config) (a : HttpAnswer) :
  is_unauthorized (mkAxiosError config (Some (axios_response a))) = false.
Proof. unfold is_unauthorized. simpl. apply andb_false_r. Qed.

(** C2 (the code departs from the claim). The server answers 403 with the
    message "Unauthorized" in its body, and the rejection handler does not
    refresh: it tests [error.response.message], which the response object
    of the client does not have (the message is at
    [error.response.data.message]), so the test fails for every answer. No
    refresh call is made, the token in the auth state stays as it was, the
    request is not re-issued, and the original error is rejected unchanged;
    the claim has the handler refresh the token, store it, set the
    Authorization header and re-issue the request. *)
Theorem unauthorized_answer_is_not_refreshed (a : HttpAnswer) (config : Config)
    (refresh : RefreshResult) (w : World) :
  let error := mkAxiosError config (Some (axios_response a)) in
  refreshInterceptor refresh error w = (w, Reject error) /\
  refreshInterceptor refresh
    (mkAxiosError config
       (Some (axios_response (mkHttpAnswer 403 (VStr "Unauthorized"))))) w
  = (w, Reject (mkAxiosError config
                  (Some (axios_response (mkHttpAnswer 403 (VStr "Unauthorized")))))) /\
  refreshInterceptor refresh (mkAxiosError config None) w
  = (w, Reject (mkAxiosError config None)).
Proof.
  cbv zeta. unfold refreshInterceptor.
  rewrite !axios_response_never_matches. repeat split.
Qed.

(** The failing input of C2 evaluated: a provider holding a token, a
    request that the server answers 403 "Unauthorized" every time, a refresh
    endpoint ready to hand out a new token. One send, no refresh call, the old token
    still in state, the error handed back. *)
Example unauthorized_request_on_the_wire :
  let sent := mkConfig "/listings" (VStr "Bearer tok-1") false in
  let out := api_request 5 (axios_transport always_403_unauthorized)
               (refresh_gives "tok-2") 0
               (mkConfig "/listings" VUndefined false)
               (mkWorld (AuthState.mk Undefined (VStr "tok-1") VUndefined false false)
                  ∅ []) in
  snd out = Err (mkAxiosError sent (Some (mkResponse 403 VUndefined))) /\
  trace (fst out) = [EvSend sent] /\
  AuthState.token (auth (fst out)) = VStr "tok-1".
Proof. repeat split. Qed.


End ResponseFacts.

(** ** Session persistence *)

Module SessionFacts.
Import Auth.

Lemma keys_differ : KEY_USER <> KEY_TOKEN.
Proof. discriminate. Qed.

Lemma item_truthy_nonempty (s : string) : s <> "" -> item_truthy (Some s) = true.
Proof.
  intros H. simpl. destruct (String.eqb_spec s ""); [contradiction | reflexivity].
Qed.

Section WithCodec.
Context {codec : JsonCodec}.

(** [fetch_throws] is exactly when the [try] block of [fetchUser] throws,
    and it throws before any effect. *)
Lemma fetchUser_try_throws (r : ApiResult) (w : World) :
  fetch_throws r = true -> fetchUser_try r w = inr w.
Proof.
  destruct r as [e|[res|]]; simpl; try reflexivity.
  destruct (truthy (status res)); simpl; [|reflexivity].
  destruct (data res) as [d|]; [|reflexivity].
  destruct (data_user d); [discriminate | reflexivity].
Qed.

Lemma fetchUser_try_returns (r : ApiResult) (w : World) :
  fetch_throws r = false -> exists w', fetchUser_try r w = inl w'.
Proof.
  destruct r as [e|[res|]]; simpl; try discriminate.
  destruct (truthy (status res)); simpl; [|discriminate].
  destruct (data res) as [d|]; [|discriminate].
  destruct (data_user d) as [u|]; [|discriminate].
  intros _. destruct (negb _); eexists; reflexivity.
Qed.

Lemma fetchUser_failed (r : ApiResult) (w : World) :
  fetch_throws r = true ->
  fetchUser r w = fetchUser_catch (call GetAuthUser w).
Proof. intros H. unfold fetchUser. now rewrite fetchUser_try_throws. Qed.

Lemma setUserSession_world (user : BackendUser.t) (authToken : string) (w : World) :
  let cu := currentUser_of user in
  let w1 := snd (setUserSession user authToken w) in
  fst (setUserSession user authToken w) = cu /\
  auth w1 = AuthState.mk (Obj cu) (VStr authToken) (CurrentUser.role cu)
              (AuthState.isAuthenticated (auth w))
              (AuthState.isLoadingAuth (auth w)) /\
  sessionStorage w1
  = <[KEY_TOKEN := stringify_token authToken]>
      (<[KEY_USER := stringify_user cu]> (sessionStorage w)) /\
  trace w1 = (trace w ++ [EvSetItem KEY_USER (stringify_user cu);
                          EvSetItem KEY_TOKEN (stringify_token authToken)])%list.
Proof.
  repeat split. simpl. now rewrite <- app_assoc.
Qed.

(** The [catch] block finds a session some earlier page load stored. *)
Lemma fetchUser_catch_restores (L : JsonLaws codec) (u : CurrentUser.t)
      (t : string) (w : World) :
  getItem KEY_USER w = Some (stringify_user u) ->
  getItem KEY_TOKEN w = Some (stringify_token t) ->
  fetchUser_catch w
  = setRole (CurrentUser.role u) (setUser (Obj u) (setToken (VStr t) w)).
Proof.
  intros Hu Ht. unfold fetchUser_catch. rewrite Hu, Ht.
  rewrite !item_truthy_nonempty
    by (apply L).
  simpl andb. cbv iota.
  now rewrite (parse_stringify_user _ L), (parse_stringify_token _ L).
Qed.

Lemma fetchUser_catch_clears (w : World) :
  getItem KEY_USER w = None \/ getItem KEY_TOKEN w = None ->
  fetchUser_catch w = setRole VNull (setUser Null (setToken VNull w)).
Proof.
  intros [H | H]; unfold fetchUser_catch; rewrite H; simpl;
    [reflexivity | now rewrite andb_false_r].
Qed.

(** C3. Session persistence is a round trip. [setUserSession] stores the
    derived current user and the token under the keys
    "admin-skymeasures-currentUser" and "admin-skymeasures-token"; when
    the provider then mounts afresh on that storage and fetching the
    authenticated user fails, user, token and role are exactly the
    stored ones. In general a failed fetch restores whatever user and
    token the two keys hold, and sets user, token and role all to null
    when either key is absent. *)
Theorem session_roundtrip (L : JsonLaws codec) :
  (forall user authToken w,
      let cu := currentUser_of user in
      let w1 := snd (setUserSession user authToken w) in
      KEY_USER = "admin-skymeasures-currentUser" /\
      KEY_TOKEN = "admin-skymeasures-token" /\
      sessionStorage w1 !! KEY_USER = Some (stringify_user cu) /\
      sessionStorage w1 !! KEY_TOKEN = Some (stringify_token authToken) /\
      forall r, fetch_throws r = true ->
        let w2 := fetchUser r (on_mount (sessionStorage w1)) in
        AuthState.user (auth w2) = Obj cu /\
        AuthState.token (auth w2) = VStr authToken /\
        AuthState.role (auth w2) = CurrentUser.role cu /\
        sessionStorage w2 = sessionStorage w1) /\
  (forall r w u t,
      fetch_throws r = true ->
      getItem KEY_USER w = Some (stringify_user u) ->
      getItem KEY_TOKEN w = Some (stringify_token t) ->
      AuthState.user (auth (fetchUser r w)) = Obj u /\
      AuthState.token (auth (fetchUser r w)) = VStr t /\
      AuthState.role (auth (fetchUser r w)) = CurrentUser.role u) /\
  (forall r w,
      fetch_throws r = true ->
      getItem KEY_USER w = None \/ getItem KEY_TOKEN w = None ->
      AuthState.user (auth (fetchUser r w)) = Null /\
      AuthState.token (auth (fetchUser r w)) = VNull /\
      AuthState.role (auth (fetchUser r w)) = VNull).
Proof.
  assert (forall r w u t,
             fetch_throws r = true ->
             getItem KEY_USER w = Some (stringify_user u) ->
             getItem KEY_TOKEN w = Some (stringify_token t) ->
             AuthState.user (auth (fetchUser r w)) = Obj u /\
             AuthState.token (auth (fetchUser r w)) = VStr t /\
             AuthState.role (auth (fetchUser r w)) = CurrentUser.role u /\
             sessionStorage (fetchUser r w) = sessionStorage w) as Hrestore.
  { intros r w u t Hr Hu Ht.
    rewrite (fetchUser_failed r w Hr).
    rewrite (fetchUser_catch_restores L u t) by assumption.
    repeat split. }
  split; [|split].
  - intros user authToken w cu w1.
    destruct (setUserSession_world user authToken w) as (_ & _ & Hs & _).
    fold w1 in Hs.
    assert (sessionStorage w1 !! KEY_USER = Some (stringify_user cu)) as Hu.
    { rewrite Hs, lookup_insert_ne by (symmetry; apply keys_differ).
      apply lookup_insert_eq. }
    assert (sessionStorage w1 !! KEY_TOKEN = Some (stringify_token authToken)) as Ht.
    { rewrite Hs. apply lookup_insert_eq. }
    repeat split; try assumption.
    all: intros; apply (Hrestore r (on_mount (sessionStorage w1)) cu authToken);
      assumption.
  - intros r w u t Hr Hu Ht.
    destruct (Hrestore r w u t Hr Hu Ht) as (? & ? & ? & _). auto.
  - intros r w Hr Hk.
    rewrite (fetchUser_failed r w Hr).
    rewrite fetchUser_catch_clears by assumption.
    repeat split.
Qed.

End WithCodec.

Lemma session_roundtrip_witness :
  let user := BackendUser.mk (VNum 7) (VStr "Ada") (VStr "ada@example.com")
                (VStr "0800") VNull (VBool true) "super-admin" in
  let w1 := snd (setUserSession (codec := FieldCodec.codec) user "tok-1" (on_mount ∅)) in
  let w2 := fetchUser (codec := FieldCodec.codec) (Rejects (mkApiError None))
              (on_mount (sessionStorage w1)) in
  AuthState.user (auth w2) = Obj (currentUser_of user) /\
  AuthState.token (auth w2) = VStr "tok-1" /\
  AuthState.role (auth w2) = VStr "ADMIN".
Proof.
  intros user w1 w2.
  destruct (proj1 (session_roundtrip FieldCodecFacts.laws) user "tok-1" (on_mount ∅))
    as (_ & _ & _ & _ & H).
  destruct (H (Rejects (mkApiError None)) eq_refl) as (Hu & Ht & Hr & _).
  split; [exact Hu | split; [exact Ht | exact Hr]].
Defined.

End SessionFacts.

(** ** Login and OTP verification *)

Module LifecycleFacts.
Import Auth.


Section WithCodec.
Context {codec : JsonCodec}.

(** A login the API accepts: the [try] block runs to its end, and the
    handler only clears the loading flag after it. *)
Lemma handleLogin_accepted (email password : Val) (res : option ApiResponse)
      (w : World) :
  truthy email = true -> truthy password = true ->
  truthy (res_status res) = true ->
  exists w',
    handleLogin_try (Resolves res)
      (call (Login email password) (setIsLoadingAuth true w)) = inl w' /\
    handleLogin email password (Resolves res) w = setIsLoadingAuth false w'.
Proof.
  intros He Hp Hs. unfold handleLogin. rewrite He, Hp. simpl orb. cbv iota.
  unfold handleLogin_try. rewrite Hs. simpl negb. cbv iota.
  destruct (negb (user_verified (res_user res))); eexists; split; reflexivity.
Qed.

Lemma handleVerifyOtp_accepted (otp email : Val) (res : option ApiResponse)
      (w : World) :
  truthy otp = true -> truthy email = true ->
  truthy (res_status res) = true ->
  let u' := CurrentUser.with_otpVerified (VBool true)
              (CurrentUser.spread (AuthState.user (auth w))) in
  handleVerifyOtp otp email (Resolves res) w
  = (setIsLoadingAuth false
       (navigate "/dashboard"
          (toast Success ["OTP verified successfully. Redirecting to dashboard..."]
             (setUser (Obj u')
                (setItem KEY_USER (stringify_user u')
                   (call (VerifyOtp otp email) (setIsLoadingAuth true w)))))),
     None).
Proof.
  intros Ho He Hs u'. unfold handleVerifyOtp.
  rewrite Ho, He, Hs. reflexivity.
Qed.


End WithCodec.


End LifecycleFacts.

(** ** The role *)

Module RoleFacts.
Import Auth.

Section WithCodec.
Context {codec : JsonCodec}.

Lemma currentUser_role (user : BackendUser.t) :
  CurrentUser.role (currentUser_of user)
  = VStr (if includes "admin" (BackendUser.role user) then "ADMIN" else "STAFF").
Proof. reflexivity. Qed.

Lemma currentUser_role_app (user : BackendUser.t) :
  is_app_role (CurrentUser.role (currentUser_of user)).
Proof.
  rewrite currentUser_role. unfold is_app_role.
  destruct (includes _ _); [left | right]; reflexivity.
Qed.


End WithCodec.



End RoleFacts.

(** ** The listing popovers *)

Module ListingFacts.
Import Listing.

Lemma array_set_lookup (idx : nat) (b : bool) (l : list (option bool)) :
  array_set idx b l !! idx = Some (Some b).
Proof.
  unfold array_set. case_decide as H.
  - now apply list_lookup_insert_eq.
  - rewrite lookup_app_r by lia.
    rewrite lookup_app_r by (rewrite length_replicate; lia).
    rewrite length_replicate.
    replace (idx - length l - (idx - length l)) with 0 by lia. reflexivity.
Qed.

Lemma array_set_other (idx j : nat) (b : bool) (l : list (option bool)) :
  j <> idx -> j < length l -> array_set idx b l !! j = l !! j.
Proof.
  intros Hne Hj. unfold array_set. case_decide as H.
  - now apply list_lookup_insert_ne.
  - now rewrite lookup_app_l.
Qed.

Lemma array_set_length (idx : nat) (b : bool) (l : list (option bool)) :
  idx < length l -> length (array_set idx b l) = length l.
Proof.
  intros H. unfold array_set. rewrite decide_True by assumption.
  apply length_insert.
Qed.

Lemma array_set_in_range (idx : nat) (b : bool) (l : list (option bool)) :
  idx < length l -> array_set idx b l = <[idx := Some b]> l.
Proof. intros H. unfold array_set. now rewrite decide_True. Qed.

Lemma quiet_silent : quiet (fun _ _ v => (v, Returned)).
Proof.
  intros data m v. split; [reflexivity|].
  exists []. split; [simpl; now rewrite app_nil_r | constructor].
Qed.

Lemma quiet_emit (e : Event) :
  is_loading e = false -> quiet (fun _ _ v => (emit e v, Returned)).
Proof.
  intros He data m v. split; [reflexivity|].
  exists [e]. split; [reflexivity | repeat constructor; exact He].
Qed.

Lemma quiet_setOpenModal (mdl : ModalState) :
  quiet (fun _ _ v => (setOpenModal mdl v, Returned)).
Proof.
  intros data m v. split; [reflexivity|].
  exists []. split; [simpl; now rewrite app_nil_r | constructor].
Qed.

Lemma quiet_mutate_then_toast (type text : string) :
  quiet (mutate_then_toast type text).
Proof.
  intros data m v. unfold mutate_then_toast.
  destruct data as [id|]; [destruct m|]; (split; [reflexivity|]).
  - exists [EvMutate id type; EvToast Auth.Success text].
    split; [simpl; now rewrite <- app_assoc | repeat constructor].
  - exists [EvMutate id type]. split; [reflexivity | repeat constructor].
  - exists []. split; [simpl; now rewrite app_nil_r | constructor].
Qed.

Lemma handlers_quiet (c : Component) (idx : nat) (h : Handler) :
  handlers c idx = Some h -> quiet h.
Proof.
  destruct c as [|has]; simpl;
    do 5 (try destruct idx as [|idx]); simpl; intros H;
    try discriminate H; injection H as <-.
  - apply quiet_mutate_then_toast.
  - now apply quiet_emit.
  - apply quiet_setOpenModal.
  - apply quiet_mutate_then_toast.
  - apply quiet_silent.
  - apply quiet_silent.
  - destruct has; [apply quiet_setOpenModal | apply quiet_silent].
  - apply quiet_silent.
  - apply quiet_silent.
Qed.

Lemma item_has_handler (c : Component) (idx : nat) (item : Item) :
  items c !! idx = Some item -> exists h, handlers c idx = Some h.
Proof.
  destruct c as [|has]; simpl;
    do 5 (try destruct idx as [|idx]); simpl; intros H;
    try discriminate; eexists; reflexivity.
Qed.

(** C10. A click on a dropdown item whose entry has [showLoader] set
    commits the loading flags with that item's flag true before the
    handler runs, and commits them with the flag false after the handler
    has finished, whether it returned or threw; in between the handler
    leaves the flags alone, and every other index keeps its flag
    throughout. It holds for both popovers. *)
Theorem loading_flag_brackets_handler (c : Component) (data : option Val)
    (m : Mutation) (idx : nat) (item : Item) (v : View) :
  items c !! idx = Some item ->
  showLoader item = true ->
  length (loadingStates v) = length (items c) ->
  let out := click (items c) (handlers c) data m idx v in
  exists h l1 evs l2,
    handlers c idx = Some h /\
    trace (fst out) = (trace v ++ EvLoading l1 :: evs ++ [EvLoading l2])%list /\
    Forall (fun e => is_loading e = false) evs /\
    trace (fst (h data m (setLoadingStates (array_set idx true) v)))
    = (trace v ++ EvLoading l1 :: evs)%list /\
    snd out = snd (h data m (setLoadingStates (array_set idx true) v)) /\
    l1 !! idx = Some (Some true) /\
    l2 !! idx = Some (Some false) /\
    loadingStates (fst out) = l2 /\
    length l2 = length (loadingStates v) /\
    forall j, j <> idx ->
              l1 !! j = loadingStates v !! j /\ l2 !! j = loadingStates v !! j.
Proof.
  intros Hitem Hshow Hlen out.
  destruct (item_has_handler c idx item Hitem) as [h Hh].
  assert (idx < length (loadingStates v)) as Hidx.
  { rewrite Hlen. eapply lookup_lt_Some, Hitem. }
  set (v1 := setLoadingStates (array_set idx true) v).
  destruct (handlers_quiet c idx h Hh data m v1) as (Hkeep & evs & Htr & Hev).
  assert (out = (setLoadingStates (array_set idx false) (fst (h data m v1)),
                 snd (h data m v1))) as Hout.
  { subst out. unfold click. rewrite Hitem. unfold handleItemClick.
    rewrite Hh, Hshow. fold v1. now destruct (h data m v1). }
  assert (loadingStates v1 = <[idx := Some true]> (loadingStates v)) as Hl1.
  { simpl. now apply array_set_in_range. }
  exists h, (loadingStates v1), evs,
    (array_set idx false (loadingStates v1)).
  rewrite Hout. simpl fst. simpl snd.
  assert (trace v1 = (trace v ++ [EvLoading (loadingStates v1)])%list) as Htv1
    by reflexivity.
  repeat split.
  - exact Hh.
  - simpl. rewrite Hkeep, Htr, Htv1, <- !app_assoc. reflexivity.
  - exact Hev.
  - rewrite Htr, Htv1, <- app_assoc. reflexivity.
  - rewrite Hl1. now apply list_lookup_insert_eq.
  - apply array_set_lookup.
  - simpl. now rewrite Hkeep.
  - rewrite array_set_length; rewrite Hl1, length_insert; [reflexivity | exact Hidx].
  - rewrite Hl1. now apply list_lookup_insert_ne.
  - rewrite array_set_in_range by (rewrite Hl1, length_insert; exact Hidx).
    rewrite Hl1, !list_lookup_insert_ne by congruence. reflexivity.
Qed.

Lemma loading_flag_brackets_handler_witness :
  let v := initial dropdownList in
  let out := click dropdownList ListingActions.onClickHandlers
               (Some (VNum 7)) MutationRejects 0 v in
  snd out = Threw /\
  loadingStates (fst out) !! 0 = Some (Some false) /\
  loadingStates (fst out) !! 3 = loadingStates v !! 3.
Proof.
  intros v out.
  destruct (loading_flag_brackets_handler RowDropdown (Some (VNum 7))
              MutationRejects 0 (mkItem "Approve" true) v
              eq_refl eq_refl eq_refl)
    as (h & l1 & evs & l2 & _ & _ & _ & _ & _ & _ & H2 & Hl & _ & Hother).
  split; [reflexivity|]. split.
  - change (loadingStates (fst out)) with
      (loadingStates (fst (click (items RowDropdown) (handlers RowDropdown)
                             (Some (VNum 7)) MutationRejects 0 v))).
    rewrite Hl. exact H2.
  - change (loadingStates (fst out)) with
      (loadingStates (fst (click (items RowDropdown) (handlers RowDropdown)
                             (Some (VNum 7)) MutationRejects 0 v))).
    rewrite Hl. apply (Hother 3). discriminate.
Defined.

Lemma requests_app (t1 t2 : list Event) :
  requests (t1 ++ t2) = (requests t1 ++ requests t2)%list.
Proof. apply List.filter_app. Qed.

(** C5 (the code departs from the claim). Of the listing actions on
    offer, only Approve and Delete of the row dropdown reach the API. A
    click on Reject in the row dropdown adds no request to the trace (it
    shows the toast "Property rejected" and nothing else), and no click on
    any entry of the details-modal dropdown (Approve, Reject, Edit, Flag,
    Delete) adds one: those handlers are empty. *)
Theorem actions_that_send_no_request :
  dropdownList !! 1 = Some (mkItem "Reject" true) /\
  options = [ mkItem "Approve" true; mkItem "Reject" true; mkItem "Edit" false;
              mkItem "Flag" true; mkItem "Delete" true ] /\
  (forall data m v,
      requests (trace (fst (click (items RowDropdown) (handlers RowDropdown)
                              data m 1 v)))
      = requests (trace v) /\
      exists l1 l2,
        trace (fst (click (items RowDropdown) (handlers RowDropdown) data m 1 v))
        = (trace v ++ [EvLoading l1; EvToast Auth.Info "Property rejected";
                       EvLoading l2])%list) /\
  (forall has idx data m v,
      requests (trace (fst (click (items (DetailsDropdown has))
                              (handlers (DetailsDropdown has)) data m idx v)))
      = requests (trace v)).
Proof.
  split; [reflexivity|]. split; [reflexivity|]. split.
  - intros data m v. split.
    + unfold click, handleItemClick. simpl.
      rewrite !requests_app. simpl. now rewrite !app_nil_r.
    + eexists _, _. unfold click, handleItemClick. simpl.
      rewrite <- !app_assoc. reflexivity.
  - intros has idx data m v. unfold click, handleItemClick.
    do 5 (try destruct idx as [|idx]); simpl; try reflexivity;
      try (rewrite !requests_app; simpl; now rewrite !app_nil_r).
    destruct has; reflexivity.
Qed.

(** C6 (the code departs from the claim). Approve asks the API to publish
    the row's property and reports it published. Delete asks the API to
    unpublish the property, through the same publish-status mutation; no
    delete request exists; and then reports "Property deleted
    successfully", which is not the operation that was performed. *)
Theorem delete_sends_unpublish (id : Val) (v : View) :
  let approve := click dropdownList ListingActions.onClickHandlers
                   (Some id) MutationResolves 0 v in
  let delete := click dropdownList ListingActions.onClickHandlers
                  (Some id) MutationResolves 3 v in
  dropdownList !! 0 = Some (mkItem "Approve" true) /\
  dropdownList !! 3 = Some (mkItem "Delete" true) /\
  (exists l1 l2,
      trace (fst approve)
      = (trace v ++ [ EvLoading l1; EvMutate id "publish";
                      EvToast Auth.Success "Property published successfully";
                      EvLoading l2 ])%list) /\
  (exists l1 l2,
      trace (fst delete)
      = (trace v ++ [ EvLoading l1; EvMutate id "unpublish";
                      EvToast Auth.Success "Property deleted successfully";
                      EvLoading l2 ])%list) /\
  requests (trace (fst delete))
  = (requests (trace v) ++ [EvMutate id "unpublish"])%list.
Proof.
  intros approve delete. subst approve delete.
  split; [reflexivity|]. split; [reflexivity|].
  unfold click, handleItemClick. simpl.
  split; [|split].
  - eexists _, _. rewrite <- !app_assoc. reflexivity.
  - eexists _, _. rewrite <- !app_assoc. reflexivity.
  - rewrite !requests_app. simpl. now rewrite !app_nil_r.
Qed.

(** The failing input of C6 evaluated: Delete on property 7. *)
Example delete_on_property_7 :
  trace (fst (click dropdownList ListingActions.onClickHandlers
                (Some (VNum 7)) MutationResolves 3 (initial dropdownList)))
  = [ EvLoading [Some false; Some false; Some false; Some true];
      EvMutate (VNum 7) "unpublish";
      EvToast Auth.Success "Property deleted successfully";
      EvLoading [Some false; Some false; Some false; Some false] ].
Proof. reflexivity. Qed.

(** The failing inputs of C5 evaluated: Reject in the row dropdown, and
    Delete in the details modal. *)
Example reject_and_modal_delete :
  trace (fst (click dropdownList ListingActions.onClickHandlers
                (Some (VNum 7)) MutationResolves 1 (initial dropdownList)))
  = [ EvLoading [Some false; Some true; Some false; Some false];
      EvToast Auth.Info "Property rejected";
      EvLoading [Some false; Some false; Some false; Some false] ] /\
  trace (fst (click options (Options.onClickHandlers true)
                (Some (VNum 7)) MutationResolves 4 (initial options)))
  = [ EvLoading [Some false; Some false; Some false; Some false; Some true];
      EvLoading [Some false; Some false; Some false; Some false; Some false] ].
Proof. split; reflexivity. Qed.

End ListingFacts.

(** ** Invariants of the provider *)

Module MachineFacts.
Import Auth Machine.

(** A request through the client changes the token and the trace, nothing
    else. *)
Lemma api_request_frame server refresh : forall fuel attempt config w,
  let w' := fst (api_request fuel server refresh attempt config w) in
  AuthState.user (auth w') = AuthState.user (auth w) /\
  AuthState.role (auth w') = AuthState.role (auth w) /\
  AuthState.isAuthenticated (auth w') = AuthState.isAuthenticated (auth w) /\
  AuthState.isLoadingAuth (auth w') = AuthState.isLoadingAuth (auth w) /\
  sessionStorage w' = sessionStorage w.
Proof.
  induction fuel as [|fuel IH]; intros attempt config w; [repeat split|].
  simpl. destruct (server attempt _) as [body|resp]; [repeat split|].
  unfold refreshInterceptor.
  destruct (is_unauthorized _); [|repeat split].
  destruct (refresh attempt) as [|[rr|]]; try solve [repeat split].
  match goal with
  | |- context [api_request fuel server refresh ?n ?c ?w1] =>
      destruct (IH n c w1) as (H1 & H2 & H3 & H4 & H5)
  end.
  cbv zeta in *. rewrite H1, H2, H3, H4, H5. repeat split.
Qed.

Section WithCodec.
Context {codec : JsonCodec}.
Variable routes_LOGIN : string.

Lemma fetchUser_catch_flags (w : World) :
  AuthState.isAuthenticated (auth (fetchUser_catch w))
  = AuthState.isAuthenticated (auth w) /\
  AuthState.isLoadingAuth (auth (fetchUser_catch w))
  = AuthState.isLoadingAuth (auth w).
Proof.
  unfold fetchUser_catch, getItem.
  destruct (_ && _); [|now split].
  destruct (_ !! KEY_USER) as [su|]; [|now split].
  destruct (_ !! KEY_TOKEN) as [st|]; [|now split].
  destruct (parse_user su); [|now split].
  destruct (parse_token st); now split.
Qed.

Lemma fetchUser_flags (r : ApiResult) (w : World) :
  AuthState.isAuthenticated (auth (fetchUser r w))
  = AuthState.isAuthenticated (auth w) /\
  AuthState.isLoadingAuth (auth (fetchUser r w))
  = AuthState.isLoadingAuth (auth w).
Proof.
  destruct (fetch_throws r) eqn:Hr.
  - rewrite (SessionFacts.fetchUser_failed r w Hr).
    apply (fetchUser_catch_flags (call GetAuthUser w)).
  - unfold fetchUser, fetchUser_try.
    destruct r as [e|[res|]]; simpl in Hr; try discriminate.
    destruct (truthy (status res)) eqn:Hs; simpl in Hr; [|discriminate].
    simpl res_status. rewrite Hs. simpl negb. cbv iota.
    destruct (data res) as [d|]; [|discriminate].
    destruct (data_user d) as [u|]; [|discriminate].
    simpl. destruct (negb _); now split.
Qed.

Lemma step_keeps_flags_down (a : Action) (w : World) :
  flags_down w -> flags_down (step routes_LOGIN a w).
Proof.
  intros [Ha Hl]. unfold flags_down.
  destruct a as [r|email password r|otp email r|email r|email r
                 |email password otp r|ok|fuel server refresh config]; simpl.
  - unfold reload.
    destruct (fetchUser_flags r (mkWorld AuthState.initial (sessionStorage w) (trace w)))
      as [H1 H2].
    now rewrite H1, H2.
  - unfold handleLogin.
    destruct (negb (truthy email) || negb (truthy password)); [now split|].
    simpl. split; [|reflexivity].
    unfold handleLogin_try.
    destruct r as [e|res]; [exact Ha|].
    destruct (negb (truthy (res_status res))); [exact Ha|].
    destruct res as [rr|]; simpl;
      [destruct (data rr) as [d|]; [destruct (data_user d) as [u|]|]|];
      simpl; try destruct (negb (truthy _)); exact Ha.
  - unfold handleVerifyOtp.
    destruct (negb (truthy otp) || negb (truthy email)); [now split|].
    destruct r as [e|res]; [now split|].
    destruct (negb (truthy (res_status res))); now split.
  - unfold handleResendOtp.
    destruct (negb (truthy email)); [now split|].
    destruct (settled_error r _); now split.
  - unfold handleForgotPassword.
    destruct (negb (truthy email)); [now split|].
    destruct (settled_error r _); now split.
  - unfold handleResetPassword.
    destruct (_ || _); [now split|].
    destruct (settled_error r _); now split.
  - destruct ok; now split.
  - destruct (api_request_frame server refresh fuel 0 config w)
      as (_ & _ & H3 & H4 & _).
    cbv zeta in *. now rewrite H3, H4.
Qed.

Lemma run_keeps_flags_down (actions : list Action) : forall w,
  flags_down w -> flags_down (run routes_LOGIN actions w).
Proof.
  induction actions as [|a actions IH]; intros w H; [exact H|].
  simpl. apply IH, step_keeps_flags_down, H.
Qed.

(** X1. From a freshly mounted provider, whatever the storage holds and
    whatever sequence of page loads, handler calls and requests follows with
    whatever answers of the API: [isAuthenticated] is still false (no handler
    ever raises it; logout alone writes it, to false) and [isLoadingAuth] is
    false again after each handler, on every path, thrown or not. *)
Theorem flags_never_left_up (storage : gmap string string) (actions : list Action) :
  let w := run routes_LOGIN actions (on_mount storage) in
  AuthState.isAuthenticated (auth w) = false /\
  AuthState.isLoadingAuth (auth w) = false.
Proof. apply run_keeps_flags_down. split; reflexivity. Qed.

(** *** The role cell *)

Lemma role_invariant_ext (w w' : World) :
  AuthState.role (auth w') = AuthState.role (auth w) ->
  AuthState.user (auth w') = AuthState.user (auth w) ->
  sessionStorage w' = sessionStorage w ->
  role_invariant w -> role_invariant w'.
Proof.
  intros Hr Hu Hs (H1 & H2 & H3). unfold role_invariant.
  rewrite Hr, Hu, Hs. auto.
Qed.

Lemma role_invariant_cleared (w' : World) :
  AuthState.role (auth w') = VNull ->
  AuthState.user (auth w') = Null ->
  storage_written_by_app (sessionStorage w') ->
  role_invariant w'.
Proof.
  intros Hr Hu Hs. unfold role_invariant. rewrite Hr, Hu.
  split; [now left|]. split; [discriminate | exact Hs].
Qed.

Lemma setUserSession_role_invariant (user : BackendUser.t) (authToken : string)
      (w : World) :
  role_invariant (snd (setUserSession user authToken w)).
Proof.
  unfold role_invariant. simpl. split; [|split].
  - right. right. apply RoleFacts.currentUser_role_app.
  - intros u [= <-]. right. apply RoleFacts.currentUser_role_app.
  - intros s Hs.
    rewrite lookup_insert_ne in Hs by (symmetry; apply SessionFacts.keys_differ).
    rewrite lookup_insert_eq in Hs. injection Hs as <-.
    exists (currentUser_of user). split; [reflexivity|].
    right. apply RoleFacts.currentUser_role_app.
Qed.

Lemma fetchUser_catch_role_invariant (L : JsonLaws codec) (w : World) :
  role_invariant w -> role_invariant (fetchUser_catch w).
Proof.
  intros (H1 & H2 & H3). unfold fetchUser_catch, getItem.
  destruct (_ && _).
  - destruct (sessionStorage w !! KEY_USER) as [su|] eqn:Hsu; [|now repeat split].
    destruct (_ !! KEY_TOKEN) as [st|]; [|now repeat split].
    destruct (H3 su Hsu) as (u & -> & Hrole).
    rewrite (parse_stringify_user _ L).
    destruct (parse_token st); [|now repeat split].
    unfold role_invariant. simpl. split; [now right|].
    split; [intros u' [= <-]; exact Hrole | exact H3].
  - apply role_invariant_cleared; [reflexivity | reflexivity | exact H3].
Qed.

Lemma fetchUser_role_invariant (L : JsonLaws codec) (r : ApiResult) (w : World) :
  role_invariant w -> role_invariant (fetchUser r w).
Proof.
  intros H. destruct (fetch_throws r) eqn:Hr.
  - rewrite (SessionFacts.fetchUser_failed r w Hr).
    apply (fetchUser_catch_role_invariant L).
    now apply (role_invariant_ext w).
  - unfold fetchUser, fetchUser_try.
    destruct r as [e|[res|]]; simpl in Hr; try discriminate.
    destruct (truthy (status res)) eqn:Hs; simpl in Hr; [|discriminate].
    simpl res_status. rewrite Hs. simpl negb. cbv iota.
    destruct (data res) as [d|]; [|discriminate].
    destruct (data_user d) as [u|]; [|discriminate].
    pose proof (setUserSession_role_invariant u (data_token d) (call GetAuthUser w)) as Hi.
    destruct (setUserSession u (data_token d) (call GetAuthUser w)) as [cu w1] eqn:E.
    simpl in Hi.
    destruct (negb _); now apply (role_invariant_ext w1).
Qed.

Lemma handleLogin_role_invariant (email password : Val) (r : ApiResult) (w : World) :
  role_invariant w -> role_invariant (handleLogin email password r w).
Proof.
  intros H. unfold handleLogin.
  destruct (negb (truthy email) || negb (truthy password)); [exact H|].
  unfold handleLogin_try.
  assert (storage_written_by_app (sessionStorage w)) as Hst by apply H.
  destruct r as [e|res].
  { apply role_invariant_cleared; [reflexivity | reflexivity | exact Hst]. }
  destruct (negb (truthy (res_status res))).
  { apply role_invariant_cleared; [reflexivity | reflexivity | exact Hst]. }
  destruct res as [rr|]; simpl res_user;
    [destruct (data rr) as [d|]; [destruct (data_user d) as [u|]|]|].
  - pose proof (setUserSession_role_invariant u (data_token d)
                  (call (Login email password) (setIsLoadingAuth true w))) as Hi.
    destruct (negb (user_verified (Some u)));
      revert Hi; apply role_invariant_ext; reflexivity.
  - simpl. revert H. apply role_invariant_ext; reflexivity.
  - simpl. revert H. apply role_invariant_ext; reflexivity.
  - simpl. revert H. apply role_invariant_ext; reflexivity.
Qed.

Lemma handleVerifyOtp_role_invariant (otp email : Val) (r : ApiResult) (w : World) :
  role_invariant w -> role_invariant (fst (handleVerifyOtp otp email r w)).
Proof.
  intros H. unfold handleVerifyOtp.
  destruct (negb (truthy otp) || negb (truthy email)); [exact H|].
  destruct r as [e|res];
    [simpl; revert H; apply role_invariant_ext; reflexivity|].
  destruct (negb (truthy (res_status res)));
    [simpl; revert H; apply role_invariant_ext; reflexivity|].
  destruct H as (H1 & H2 & H3).
  unfold role_invariant. simpl.
  assert (user_role_ok (CurrentUser.role (CurrentUser.spread (AuthState.user (auth w)))))
    as Hsp.
  { destruct (AuthState.user (auth w)) as [| |u] eqn:Hu; simpl;
      [now left | now left | now apply H2]. }
  split; [exact H1|]. split.
  - intros u [= <-]. exact Hsp.
  - intros s Hs. rewrite lookup_insert_eq in Hs. injection Hs as <-.
    eexists. split; [reflexivity | exact Hsp].
Qed.

Lemma step_keeps_role_invariant (L : JsonLaws codec) (a : Action) (w : World) :
  role_invariant w -> role_invariant (step routes_LOGIN a w).
Proof.
  intros H.
  destruct a as [r|email password r|otp email r|email r|email r
                 |email password otp r|ok|fuel server refresh config]; simpl.
  - unfold reload. apply (fetchUser_role_invariant L).
    destruct H as (_ & _ & H3).
    split; [right; now left|]. split; [discriminate | exact H3].
  - now apply handleLogin_role_invariant.
  - now apply handleVerifyOtp_role_invariant.
  - unfold handleResendOtp.
    destruct (negb (truthy email)); [exact H|].
    destruct (settled_error r _); revert H; apply role_invariant_ext; reflexivity.
  - unfold handleForgotPassword.
    destruct (negb (truthy email)); [exact H|].
    destruct (settled_error r _); revert H; apply role_invariant_ext; reflexivity.
  - unfold handleResetPassword.
    destruct (_ || _); [exact H|].
    destruct (settled_error r _); revert H; apply role_invariant_ext; reflexivity.
  - destruct ok; [|revert H; apply role_invariant_ext; reflexivity].
    apply role_invariant_cleared; [reflexivity | reflexivity |].
    intros s Hs. simpl in Hs.
    rewrite lookup_delete_ne in Hs by (symmetry; apply SessionFacts.keys_differ).
    now rewrite lookup_delete_eq in Hs.
  - destruct (api_request_frame server refresh fuel 0 config w)
      as (H1 & H2 & _ & _ & H5).
    revert H. apply role_invariant_ext; assumption.
Qed.

(** X2. From a provider mounted on a storage that it wrote itself (or an
    empty one), after any sequence of page loads, handler calls and requests,
    whatever the API answers: the role cell is "ADMIN", "STAFF", null or
    undefined and nothing else, the user object held in state carries
    "ADMIN", "STAFF" or no role, and the storage is still one the provider
    wrote. *)
Theorem role_cell_stays_in_range (L : JsonLaws codec)
    (storage : gmap string string) (actions : list Action) :
  storage_written_by_app storage ->
  role_invariant (run routes_LOGIN actions (on_mount storage)).
Proof.
  intros Hst.
  assert (role_invariant (on_mount storage)) as H0.
  { split; [right; now left|]. split; [discriminate | exact Hst]. }
  revert H0. generalize (on_mount storage).
  induction actions as [|a actions IH]; intros w H; [exact H|].
  simpl. apply IH. now apply step_keeps_role_invariant.
Qed.

End WithCodec.

Lemma role_cell_stays_in_range_witness :
  let user := BackendUser.mk (VNum 7) (VStr "Ada") VUndefined VUndefined
                VUndefined (VBool false) "admin" in
  let ok := Resolves (Some (mkApiResponse (VBool true) None
                              (Some (mkResData (Some user) "tok-1")))) in
  role_invariant (codec := FieldCodec.codec)
    (run (codec := FieldCodec.codec) "/login"
       [ DoLogin (VStr "a@b.c") (VStr "pw") ok;
         DoVerifyOtp (VNum 1234) (VStr "a@b.c") ok;
         Reload (Rejects (mkApiError None));
         DoLogout true ]
       (on_mount ∅)).
Proof.
  intros user ok.
  apply (role_cell_stays_in_range (codec := FieldCodec.codec) "/login"
           FieldCodecFacts.laws ∅).
  intros s Hs. rewrite lookup_empty in Hs. discriminate Hs.
Defined.

End MachineFacts.

(** ** Signing out, and failing to sign in *)

Module SignOutFacts.
Import Auth Machine.

Lemma navigations_app (t1 t2 : list Event) :
  navigations (t1 ++ t2) = (navigations t1 ++ navigations t2)%list.
Proof. apply omap_app. Qed.

Section WithCodec.
Context {codec : JsonCodec}.
Variable routes_LOGIN : string.

(** X3. A logout the API accepts empties user, token and role, removes both
    session keys and leaves every other key of sessionStorage alone, then
    navigates to the login route; a page load after it cannot bring the
    session back, whatever was stored before. A logout the API refuses
    changes neither the auth state nor the storage and does not navigate. *)
Theorem logout_outcomes (w : World) :
  (let w1 := handleLogout routes_LOGIN true w in
   AuthState.user (auth w1) = Null /\
   AuthState.token (auth w1) = VNull /\
   AuthState.role (auth w1) = VNull /\
   getItem KEY_USER w1 = None /\
   getItem KEY_TOKEN w1 = None /\
   (forall k, k <> KEY_USER -> k <> KEY_TOKEN -> getItem k w1 = getItem k w) /\
   navigations (trace w1) = (navigations (trace w) ++ [routes_LOGIN])%list /\
   forall r, fetch_throws r = true ->
     AuthState.user (auth (reload r w1)) = Null /\
     AuthState.token (auth (reload r w1)) = VNull /\
     AuthState.role (auth (reload r w1)) = VNull) /\
  (let w2 := handleLogout routes_LOGIN false w in
   auth w2 = auth w /\
   sessionStorage w2 = sessionStorage w /\
   navigations (trace w2) = navigations (trace w) /\
   api_calls (trace w2) = (api_calls (trace w) ++ [Logout])%list).
Proof.
  split.
  - cbv zeta.
    assert (getItem KEY_USER (handleLogout routes_LOGIN true w) = None) as Hu.
    { unfold getItem. simpl.
      rewrite lookup_delete_ne by (symmetry; apply SessionFacts.keys_differ).
      apply lookup_delete_eq. }
    repeat split; try exact Hu.
    + unfold getItem. simpl. apply lookup_delete_eq.
    + intros k H1 H2. unfold getItem. simpl.
      rewrite !lookup_delete_ne by congruence. reflexivity.
    + simpl. rewrite !navigations_app. simpl. now rewrite !app_nil_r.
    + unfold reload. rewrite (SessionFacts.fetchUser_failed r _ H).
      rewrite SessionFacts.fetchUser_catch_clears by (left; exact Hu).
      reflexivity.
    + unfold reload. rewrite (SessionFacts.fetchUser_failed r _ H).
      rewrite SessionFacts.fetchUser_catch_clears by (left; exact Hu).
      reflexivity.
    + unfold reload. rewrite (SessionFacts.fetchUser_failed r _ H).
      rewrite SessionFacts.fetchUser_catch_clears by (left; exact Hu).
      reflexivity.
  - cbv zeta. simpl. repeat split.
    + rewrite !navigations_app. simpl. now rewrite !app_nil_r.
    + unfold api_calls. rewrite !omap_app. simpl. now rewrite app_nil_r.
Qed.



(** X5. An OTP verification that fails (the call rejects, or resolves with
    a falsy status) shows one error toast and rethrows: the message is the
    API's when the rejection carries one, "Failed to verify OTP." otherwise.
    User, token, role and sessionStorage are as before, nothing is navigated
    to, and the loading flag is down. *)
Theorem failed_otp_rethrows (otp email : Val) (r : ApiResult) (w : World) :
  truthy otp = true -> truthy email = true -> login_fails r = true ->
  let out := handleVerifyOtp otp email r w in
  let m := match r with Rejects e => response_data_message e | Resolves _ => None end in
  snd out = Some (msg_or m "Failed to verify OTP.") /\
  AuthState.user (auth (fst out)) = AuthState.user (auth w) /\
  AuthState.token (auth (fst out)) = AuthState.token (auth w) /\
  AuthState.role (auth (fst out)) = AuthState.role (auth w) /\
  AuthState.isLoadingAuth (auth (fst out)) = false /\
  sessionStorage (fst out) = sessionStorage w /\
  trace (fst out)
  = (trace w ++ [ EvApi (VerifyOtp otp email);
                  EvToast Error [msg_or m "Failed to verify OTP. Please try again."] ])%list.
Proof.
  intros Ho He Hf out m. subst out m. unfold handleVerifyOtp.
  rewrite Ho, He. simpl orb. cbv iota.
  destruct r as [e|res].
  - repeat split. simpl. now rewrite <- app_assoc.
  - simpl in Hf. rewrite Hf. repeat split. simpl. now rewrite <- app_assoc.
Qed.

(** X6. When the API resolves with a falsy status, every handler discards
    the message of that response: the error toast shows the handler's own
    default text, whatever the response said. *)
Theorem falsy_status_message_is_dropped (res : option ApiResponse) (w : World) :
  truthy (res_status res) = false ->
  (forall email password,
      truthy email = true -> truthy password = true ->
      toasts (trace (handleLogin email password (Resolves res) w))
      = (toasts (trace w) ++ [(Error, ["Error signing in"; "Error signing in"])])%list) /\
  (forall otp email,
      truthy otp = true -> truthy email = true ->
      toasts (trace (fst (handleVerifyOtp otp email (Resolves res) w)))
      = (toasts (trace w) ++ [(Error, ["Failed to verify OTP. Please try again."])])%list) /\
  (forall email,
      truthy email = true ->
      toasts (trace (handleResendOtp email (Resolves res) w))
      = (toasts (trace w) ++ [(Error, ["Failed to resend OTP"])])%list) /\
  (forall email,
      truthy email = true ->
      toasts (trace (handleForgotPassword email (Resolves res) w))
      = (toasts (trace w) ++ [(Error, ["Error sending reset OTP"])])%list) /\
  (forall email password otp,
      truthy email = true -> truthy password = true -> truthy otp = true ->
      toasts (trace (handleResetPassword email password otp (Resolves res) w))
      = (toasts (trace w) ++ [(Error, ["Failed to reset password"])])%list).
Proof.
  intros Hs. unfold toasts. repeat split.
  - intros email password He Hp. unfold handleLogin, handleLogin_try.
    rewrite He, Hp, Hs. simpl. rewrite !omap_app. simpl. now rewrite !app_nil_r.
  - intros otp email Ho He. unfold handleVerifyOtp.
    rewrite Ho, He, Hs. simpl. rewrite !omap_app. simpl. now rewrite !app_nil_r.
  - intros email He. unfold handleResendOtp, settled_error.
    rewrite He, Hs. simpl. rewrite !omap_app. simpl. now rewrite !app_nil_r.
  - intros email He. unfold handleForgotPassword, settled_error.
    rewrite He, Hs. simpl. rewrite !omap_app. simpl. now rewrite !app_nil_r.
  - intros email password otp He Hp Ho. unfold handleResetPassword, settled_error.
    rewrite He, Hp, Ho, Hs. simpl. rewrite !omap_app. simpl. now rewrite !app_nil_r.
Qed.

End WithCodec.


Lemma failed_otp_rethrows_witness :
  snd (handleVerifyOtp (codec := FieldCodec.codec) (VNum 1234)
         (VStr "ada@example.com") (Rejects (mkApiError (Some "Invalid OTP")))
         signed_in)
  = Some "Invalid OTP".
Proof.
  exact (proj1 (failed_otp_rethrows (codec := FieldCodec.codec) (VNum 1234)
                  (VStr "ada@example.com") (Rejects (mkApiError (Some "Invalid OTP")))
                  signed_in eq_refl eq_refl eq_refl)).
Defined.

Lemma falsy_status_message_is_dropped_witness :
  toasts (trace (handleLogin (codec := FieldCodec.codec) (VStr "ada@example.com")
                   (VStr "pw")
                   (Resolves (Some (mkApiResponse (VBool false)
                                      (Some "Account suspended") None)))
                   (on_mount ∅)))
  = [(Error, ["Error signing in"; "Error signing in"])].
Proof.
  exact (proj1 (falsy_status_message_is_dropped (codec := FieldCodec.codec)
                  (Some (mkApiResponse (VBool false) (Some "Account suspended") None))
                  (on_mount ∅) eq_refl)
           (VStr "ada@example.com") (VStr "pw") eq_refl eq_refl).
Defined.

End SignOutFacts.

(** ** State and storage in step *)

Module SyncFacts.
Import Auth Machine.

Section WithCodec.
Context {codec : JsonCodec}.
Variable routes_LOGIN : string.

Lemma setUserSession_in_sync (user : BackendUser.t) (authToken : string) (w : World) :
  session_in_sync (snd (setUserSession user authToken w)).
Proof.
  exists (currentUser_of user), authToken. repeat split.
  - unfold getItem. simpl.
    rewrite lookup_insert_ne by (symmetry; apply SessionFacts.keys_differ).
    apply lookup_insert_eq.
  - unfold getItem. simpl. apply lookup_insert_eq.
Qed.

Lemma session_in_sync_ext (w w' : World) :
  AuthState.user (auth w') = AuthState.user (auth w) ->
  AuthState.token (auth w') = AuthState.token (auth w) ->
  AuthState.role (auth w') = AuthState.role (auth w) ->
  sessionStorage w' = sessionStorage w ->
  session_in_sync w -> session_in_sync w'.
Proof.
  intros Hu Ht Hr Hs (u & t & H). exists u, t. unfold getItem in *.
  rewrite Hu, Ht, Hr, Hs. exact H.
Qed.

(** What a successful fetch leaves behind. *)
Lemma fetchUser_succeeds (r : ApiResult) (w : World) :
  fetch_throws r = false ->
  exists res d user,
    r = Resolves (Some res) /\ data res = Some d /\ data_user d = Some user /\
    let w1 := fetchUser r w in
    AuthState.user (auth w1) = Obj (currentUser_of user) /\
    AuthState.token (auth w1) = VStr (data_token d) /\
    AuthState.role (auth w1) = CurrentUser.role (currentUser_of user) /\
    session_in_sync w1 /\
    exists evs,
      trace w1 = (trace w ++ evs)%list /\
      navigations evs
      = [if truthy (BackendUser.is_verified user) then "/dashboard" else "/verify-otp"].
Proof.
  intros Hr.
  destruct r as [e|[res|]]; simpl in Hr; try discriminate.
  destruct (truthy (status res)) eqn:Hs; simpl in Hr; [|discriminate].
  destruct (data res) as [d|] eqn:Hd; [|discriminate].
  destruct (data_user d) as [u|] eqn:Hu; [|discriminate].
  exists res, d, u. split; [reflexivity|]. split; [exact Hd|]. split; [exact Hu|].
  cbv zeta. unfold fetchUser, fetchUser_try. simpl res_status.
  rewrite Hs, Hd, Hu. simpl negb. cbv iota.
  pose proof (setUserSession_in_sync u (data_token d) (call GetAuthUser w)) as Hsync.
  assert (truthy (CurrentUser.otpVerified (currentUser_of u))
          = truthy (BackendUser.is_verified u)) as Hv.
  { simpl. unfold or_else. now destruct (truthy (BackendUser.is_verified u)) eqn:E. }
  destruct (setUserSession u (data_token d) (call GetAuthUser w)) as [cu w1] eqn:E.
  assert (cu = currentUser_of u) as -> by (injection E as <- _; reflexivity).
  assert (w1 = snd (setUserSession u (data_token d) (call GetAuthUser w))) as Hw1
    by (now rewrite E).
  rewrite Hv. simpl in Hsync.
  destruct (truthy (BackendUser.is_verified u)); simpl negb; cbv iota.
  all: split; [subst w1; reflexivity|].
  all: split; [subst w1; reflexivity|].
  all: split; [subst w1; reflexivity|].
  all: split; [revert Hsync; apply session_in_sync_ext; reflexivity|].
  all: eexists; split; [subst w1; simpl; rewrite <- !app_assoc; reflexivity | reflexivity].
Qed.

(** X7. A fetch of the authenticated user that succeeds establishes the
    session of the user it returned, in state and in storage alike, and
    navigates exactly once: to the dashboard when the backend reports the
    user verified, to the OTP screen otherwise. *)
Theorem fetchUser_success (r : ApiResult) (w : World) :
  fetch_throws r = false ->
  exists res d user,
    r = Resolves (Some res) /\ data res = Some d /\ data_user d = Some user /\
    let w1 := fetchUser r w in
    AuthState.user (auth w1) = Obj (currentUser_of user) /\
    AuthState.token (auth w1) = VStr (data_token d) /\
    AuthState.role (auth w1) = CurrentUser.role (currentUser_of user) /\
    session_in_sync w1 /\
    exists evs,
      trace w1 = (trace w ++ evs)%list /\
      navigations evs
      = [if truthy (BackendUser.is_verified user) then "/dashboard" else "/verify-otp"].
Proof. apply fetchUser_succeeds. Qed.

(** X8. Once state and storage agree on a session, they keep agreeing
    through page loads, accepted logins, OTP verifications (accepted or
    not), the password handlers and refused logouts: after any such actions
    a page load would restore exactly the user, token and role the provider
    holds. *)
Theorem session_stays_in_sync (L : JsonLaws codec) (actions : list Action) :
  forall w,
    session_in_sync w ->
    forallb keeps_session actions = true ->
    session_in_sync (run routes_LOGIN actions w).
Proof.
  induction actions as [|a actions IH]; intros w H Hk; [exact H|].
  simpl in Hk. apply andb_true_iff in Hk as [Ha Hk].
  simpl. apply IH; [|exact Hk]. clear IH Hk.
  destruct a as [r|email password r|otp email r|email r|email r
                 |email password otp r|ok|fuel server refresh config]; simpl.
  - unfold reload. destruct (fetch_throws r) eqn:Hr.
    + destruct H as (u & t & Hu & Ht & Hro & Hsu & Hst).
      rewrite (SessionFacts.fetchUser_failed r _ Hr).
      rewrite (SessionFacts.fetchUser_catch_restores L u t) by assumption.
      exists u, t. repeat split; assumption.
    + destruct (fetchUser_succeeds r
                  (mkWorld AuthState.initial (sessionStorage w) (trace w)) Hr)
        as (res & d & user & _ & _ & _ & _ & _ & _ & Hsync & _).
      exact Hsync.
  - unfold handleLogin.
    destruct (negb (truthy email) || negb (truthy password)) eqn:Hg; [exact H|].
    apply orb_false_iff in Hg as [He Hp].
    apply negb_false_iff in He. apply negb_false_iff in Hp.
    simpl in Ha. rewrite He, Hp in Ha. simpl in Ha. apply negb_true_iff in Ha.
    unfold handleLogin_try. destruct r as [e|res]; [discriminate Ha|].
    simpl in Ha. rewrite Ha.
    destruct res as [rr|]; simpl res_user;
      [destruct (data rr) as [d|]; [destruct (data_user d) as [u|]|]|].
    + pose proof (setUserSession_in_sync u (data_token d)
                    (call (Login email password) (setIsLoadingAuth true w))) as Hi.
      destruct (negb (user_verified (Some u)));
        revert Hi; apply session_in_sync_ext; reflexivity.
    + simpl. revert H. apply session_in_sync_ext; reflexivity.
    + simpl. revert H. apply session_in_sync_ext; reflexivity.
    + simpl. revert H. apply session_in_sync_ext; reflexivity.
  - unfold handleVerifyOtp.
    destruct (negb (truthy otp) || negb (truthy email)); [exact H|].
    destruct r as [e|res];
      [simpl; revert H; apply session_in_sync_ext; reflexivity|].
    destruct (negb (truthy (res_status res)));
      [simpl; revert H; apply session_in_sync_ext; reflexivity|].
    destruct H as (u & t & Hu & Ht & Hro & Hsu & Hst).
    exists (CurrentUser.with_otpVerified (VBool true) u), t.
    simpl. rewrite Hu. simpl. repeat split; try assumption.
    + unfold getItem. simpl. apply lookup_insert_eq.
    + unfold getItem in *. simpl.
      rewrite lookup_insert_ne by apply SessionFacts.keys_differ. exact Hst.
  - unfold handleResendOtp.
    destruct (negb (truthy email)); [exact H|].
    destruct (settled_error r _); revert H; apply session_in_sync_ext; reflexivity.
  - unfold handleForgotPassword.
    destruct (negb (truthy email)); [exact H|].
    destruct (settled_error r _); revert H; apply session_in_sync_ext; reflexivity.
  - unfold handleResetPassword.
    destruct (_ || _); [exact H|].
    destruct (settled_error r _); revert H; apply session_in_sync_ext; reflexivity.
  - destruct ok; [discriminate Ha|].
    revert H. apply session_in_sync_ext; reflexivity.
  - discriminate Ha.
Qed.

End WithCodec.

Lemma fetchUser_success_witness :
  let r := Resolves (Some (mkApiResponse (VBool true) None
                             (Some (mkResData (Some ada) "tok-2")))) in
  let w1 := fetchUser (codec := FieldCodec.codec) r (on_mount ∅) in
  AuthState.token (auth w1) = VStr "tok-2" /\
  navigations (trace w1) = ["/dashboard"].
Proof.
  intros r w1.
  destruct (fetchUser_success (codec := FieldCodec.codec) r (on_mount ∅) eq_refl)
    as (res & d & user & _ & _ & _ & _).
  split; reflexivity.
Defined.

Lemma session_stays_in_sync_witness :
  session_in_sync (codec := FieldCodec.codec)
    (run (codec := FieldCodec.codec) "/login"
       [ DoVerifyOtp (VNum 1234) (VStr "ada@example.com")
           (Resolves (Some (mkApiResponse (VBool true) None None)));
         DoLogout false;
         Reload (Rejects (mkApiError None)) ]
       signed_in).
Proof.
  apply (session_stays_in_sync (codec := FieldCodec.codec) "/login"
           FieldCodecFacts.laws).
  - apply (setUserSession_in_sync (codec := FieldCodec.codec)).
  - reflexivity.
Defined.

End SyncFacts.

(** ** The client, end to end *)

Module ClientFacts.
Import Auth Machine.

Lemma refresh_count_app (t1 t2 : list Event) :
  refresh_count (t1 ++ t2) = refresh_count t1 + refresh_count t2.
Proof. unfold refresh_count. now rewrite List.filter_app, length_app. Qed.

Lemma send_count_app (t1 t2 : list Event) :
  send_count (t1 ++ t2) = send_count t1 + send_count t2.
Proof. unfold send_count. now rewrite List.filter_app, length_app. Qed.

Lemma is_unauthorized_mark_retry (error : AxiosError) :
  is_unauthorized (mark_retry error) = is_unauthorized error.
Proof. reflexivity. Qed.

(** X9. Whatever the transport and the refresh endpoint answer, a request
    ends in one of three ways, and the trace tells which. Fulfilled: one
    send more than refresh calls. Rejected: one send more than refresh calls
    when the last failure was not a 403 "Unauthorized", as many sends as
    refresh calls when it was and the refresh failed. Still in flight when
    the attempts run out: every attempt was sent and every one was followed
    by a refresh. Never more sends than attempts allowed, never more refresh
    calls than sends. *)
Theorem request_sends_and_refreshes server refresh :
  forall fuel attempt config w,
    let out := api_request fuel server refresh attempt config w in
    exists evs,
      trace (fst out) = (trace w ++ evs)%list /\
      send_count evs <= fuel /\
      refresh_count evs <= send_count evs /\
      match snd out with
      | Ok _ => send_count evs = S (refresh_count evs)
      | Err e =>
          if is_unauthorized e
          then send_count evs = refresh_count evs
          else send_count evs = S (refresh_count evs)
      | Pending => send_count evs = fuel /\ refresh_count evs = fuel
      end.
Proof.
  induction fuel as [|fuel IH]; intros attempt config w; cbv zeta.
  - exists []. simpl. rewrite app_nil_r. repeat split; reflexivity || lia.
  - simpl. destruct (server attempt _) as [body|resp].
    + eexists [_]. simpl. repeat split; try reflexivity; cbn; lia.
    + unfold refreshInterceptor.
      destruct (is_unauthorized _) eqn:Hu.
      2:{ eexists [_]. simpl. rewrite Hu. repeat split; try reflexivity; cbn; lia. }
      destruct (refresh attempt) as [|[rr|]].
      * eexists [_; _; _]. simpl. rewrite <- !app_assoc.
        rewrite is_unauthorized_mark_retry, Hu.
        repeat split; try reflexivity; cbn; lia.
      * match goal with
        | |- context [api_request fuel server refresh ?n ?c ?w1] =>
            destruct (IH n c w1) as (evs & Ht & H1 & H2 & H3)
        end.
        cbv zeta in *.
        exists (EvSend (requestInterceptor (AuthState.token (auth w)) config)
                  :: EvApi RefreshAccessToken :: evs).
        rewrite Ht. simpl trace. rewrite <- !app_assoc. simpl.
        split; [reflexivity|].
        change (EvSend ?c :: EvApi RefreshAccessToken :: evs)
          with ([EvSend c; EvApi RefreshAccessToken] ++ evs)%list.
        rewrite send_count_app, refresh_count_app. cbn.
        split; [lia|]. split; [lia|].
        destruct (snd _) as [body|e|];
          [lia | destruct (is_unauthorized e); lia | lia].
      * eexists [_; _; _]. simpl. rewrite <- !app_assoc.
        rewrite is_unauthorized_mark_retry, Hu.
        repeat split; try reflexivity; cbn; lia.
Qed.

(** X10. Every send of one request goes to the url of the original
    request. The first is the request as the request interceptor prepared
    it from the state's token; each later one is marked [_retry] and carries
    a "Bearer ..." header built from the freshly refreshed token, which the
    request interceptor leaves in place. *)
Theorem reissued_requests_are_marked server refresh :
  forall fuel attempt config w,
    let out := api_request fuel server refresh attempt config w in
    exists evs,
      trace (fst out) = (trace w ++ evs)%list /\
      Forall (fun c => url c = url config) (sends evs) /\
      match sends evs with
      | [] => fuel = 0
      | first :: rest =>
          first = requestInterceptor (AuthState.token (auth w)) config /\
          Forall (fun c => _retry c = true /\
                           exists t, Authorization c = VStr ("Bearer " ++ t)) rest
      end.
Proof.
  induction fuel as [|fuel IH]; intros attempt config w; cbv zeta.
  - exists []. simpl. rewrite app_nil_r. repeat split. constructor.
  - simpl. destruct (server attempt _) as [body|resp].
    + eexists [_]. simpl. repeat split; repeat constructor.
    + unfold refreshInterceptor.
      destruct (is_unauthorized _) eqn:Hu.
      2:{ eexists [_]. simpl. repeat split; repeat constructor. }
      destruct (refresh attempt) as [|[rr|]].
      * eexists [_; _; _]. simpl. rewrite <- !app_assoc.
        repeat split; repeat constructor.
      * match goal with
        | |- context [api_request fuel server refresh ?n ?c ?w1] =>
            destruct (IH n c w1) as (evs & Ht & H1 & H2)
        end.
        cbv zeta in *.
        exists (EvSend (requestInterceptor (AuthState.token (auth w)) config)
                  :: EvApi RefreshAccessToken :: evs).
        rewrite Ht. simpl trace. rewrite <- !app_assoc. simpl.
        split; [reflexivity|]. split.
        -- constructor; [reflexivity|]. exact H1.
        -- split; [reflexivity|].
           destruct (sends evs) as [|c rest]; [constructor|].
           destruct H2 as [-> H2]. constructor; [|exact H2].
           split; [reflexivity|]. eexists. reflexivity.
      * eexists [_; _; _]. simpl. rewrite <- !app_assoc.
        repeat split; repeat constructor.
Qed.

Section WithCodec.
Context {codec : JsonCodec}.


End WithCodec.


End ClientFacts.

(** ** How the role is read off the backend's role string *)

Module RoleStringFacts.
Import Auth.

Lemma prefix_iff (p : string) : forall s,
  String.prefix p s = true <-> exists rest, s = p ++ rest.
Proof.
  induction p as [|c p IH]; intros s.
  - split; [intros _; exists s; reflexivity | intros _; now destruct s].
  - destruct s as [|d s]; simpl.
    + split; [discriminate | intros [rest H]; discriminate H].
    + destruct (ascii_dec c d) as [->|Hne].
      * rewrite IH. split; intros [rest H]; exists rest.
        -- now rewrite H.
        -- now injection H.
      * split; [discriminate|]. intros [rest H]. injection H as H1 _. congruence.
Qed.

Lemma includes_cons (needle : string) (c : ascii) (hay : string) :
  includes needle (String c hay)
  = String.prefix needle (String c hay) || includes needle hay.
Proof. reflexivity. Qed.

(** [includes] is the substring test. *)
Lemma includes_iff (needle : string) : forall hay,
  includes needle hay = true <-> exists a b, hay = a ++ needle ++ b.
Proof.
  induction hay as [|c hay IH].
  - change (includes needle "") with (String.prefix needle "" || false).
    rewrite orb_false_r, prefix_iff. split.
    + intros [rest H]. exists "", rest. exact H.
    + intros (a & b & H). destruct a as [|x a]; [|discriminate H].
      exists b. exact H.
  - rewrite includes_cons, orb_true_iff, prefix_iff, IH. split.
    + intros [[rest H] | (a & b & H)].
      * exists "", rest. exact H.
      * exists (String c a), b. now rewrite H.
    + intros (a & b & H). destruct a as [|x a].
      * left. exists b. exact H.
      * right. exists a, b. now injection H.
Qed.

(** X12. The role a session gets is "ADMIN" exactly when the backend's role
    string has "admin" somewhere inside it, in lower case, and "STAFF" in
    every other case; so "super-admin" and "administrator" are admins,
    whatever surrounds the word. *)
Theorem role_follows_substring (user : BackendUser.t) :
  (CurrentUser.role (currentUser_of user) = VStr "ADMIN" <->
   exists a b, BackendUser.role user = a ++ "admin" ++ b) /\
  (CurrentUser.role (currentUser_of user) = VStr "STAFF" <->
   ~ exists a b, BackendUser.role user = a ++ "admin" ++ b).
Proof.
  rewrite RoleFacts.currentUser_role.
  pose proof (includes_iff "admin" (BackendUser.role user)) as H.
  destruct (includes "admin" (BackendUser.role user)).
  - split.
    + split; [intros _; now apply H | reflexivity].
    + split; [discriminate|]. intros Hn. exfalso. apply Hn. now apply H.
  - split.
    + split; [discriminate|]. intros Hs. apply H in Hs. discriminate Hs.
    + split; [|reflexivity]. intros _ Hs. apply H in Hs. discriminate Hs.
Qed.

End RoleStringFacts.

(** ** More on the listing popovers *)

Module ClickFacts.
Import Listing.

Lemma initial_loading_lookup (l : list Item) (i : nat) :
  initial_loading l !! i = (fun _ => Some false) <$> (l !! i).
Proof.
  revert i. induction l as [|x l IH]; intros [|i]; simpl; try reflexivity.
  apply IH.
Qed.

Lemma initial_loading_length (l : list Item) :
  length (initial_loading l) = length l.
Proof. apply List.length_map. Qed.

Lemma array_set_twice (idx : nat) (l : list (option bool)) :
  l !! idx = Some (Some false) ->
  array_set idx false (array_set idx true l) = l.
Proof.
  intros H. assert (idx < length l) as Hlt by (eapply lookup_lt_Some, H).
  rewrite (ListingFacts.array_set_in_range idx true l Hlt).
  rewrite ListingFacts.array_set_in_range by (now rewrite length_insert).
  rewrite list_insert_insert_eq. now apply list_insert_id.
Qed.

Lemma click_keeps_flags_off (c : Component) (data : option Val) (m : Mutation)
      (idx : nat) (v : View) :
  loadingStates v = initial_loading (items c) ->
  loadingStates (fst (click (items c) (handlers c) data m idx v))
  = initial_loading (items c).
Proof.
  intros Hl. unfold click.
  destruct (items c !! idx) as [item|] eqn:Hitem; [|exact Hl].
  unfold handleItemClick.
  destruct (ListingFacts.item_has_handler c idx item Hitem) as [h Hh].
  rewrite Hh.
  destruct (showLoader item).
  - destruct (ListingFacts.handlers_quiet c idx h Hh data m
                (setLoadingStates (array_set idx true) v)) as [Hkeep _].
    destruct (h data m _) as [v' cpl]. simpl in *. rewrite Hkeep, Hl.
    apply array_set_twice. now rewrite initial_loading_lookup, Hitem.
  - destruct (ListingFacts.handlers_quiet c idx h Hh data m v) as [Hkeep _].
    destruct (h data m v) as [v' cpl]. simpl in *. now rewrite Hkeep.
Qed.

(** X13. After any sequence of clicks on either popover, each one run to
    its end; whatever entries are clicked, whatever the rows are and
    whatever the mutations settle to, handlers throwing or not; no spinner
    is left on: the loading flags are all false again and the array has
    kept one slot per entry. *)
Theorem no_spinner_left_on (c : Component)
    (l : list (nat * option Val * Mutation)) :
  let v := clicks c l (initial (items c)) in
  loadingStates v = initial_loading (items c) /\
  length (loadingStates v) = length (items c) /\
  Forall (fun flag => flag = Some false) (loadingStates v).
Proof.
  assert (forall v, loadingStates v = initial_loading (items c) ->
                    loadingStates (clicks c l v) = initial_loading (items c)) as H.
  { induction l as [|[[idx data] m] l IH]; intros v Hv; [exact Hv|].
    simpl. apply IH. now apply click_keeps_flags_off. }
  cbv zeta. rewrite (H (initial (items c)) eq_refl).
  split; [reflexivity|]. split; [apply initial_loading_length|].
  apply Forall_lookup. intros i flag Hi.
  rewrite initial_loading_lookup in Hi.
  destruct (items c !! i); simpl in Hi; congruence.
Qed.

(** X14. Approve and Delete of the row dropdown announce success only
    after the API accepted the mutation. With a row and a mutation that
    resolves: the request, then the toast. With a mutation that rejects: the
    request, no toast, and the click ends with the rejection. Without a row:
    nothing is sent and the click throws. The loading flag is committed on
    and off around all three. *)
Theorem success_toast_only_after_mutation (idx : nat) (type text : string)
    (data : option Val) (m : Mutation) (v : View) :
  (idx = 0 /\ type = "publish" /\ text = "Property published successfully") \/
  (idx = 3 /\ type = "unpublish" /\ text = "Property deleted successfully") ->
  let out := click dropdownList ListingActions.onClickHandlers data m idx v in
  exists l1 l2,
    trace (fst out)
    = (trace v ++ EvLoading l1 ::
         match data, m with
         | Some id, MutationResolves =>
             [EvMutate id type; EvToast Auth.Success text]
         | Some id, MutationRejects => [EvMutate id type]
         | None, _ => []
         end ++ [EvLoading l2])%list /\
    snd out = match data, m with
              | Some _, MutationResolves => Returned
              | _, _ => Threw
              end.
Proof.
  intros [(-> & -> & ->) | (-> & -> & ->)] out; subst out;
    unfold click, handleItemClick; simpl;
    destruct data as [id|]; [destruct m| |destruct m|]; simpl;
    eexists _, _; (split; [rewrite <- ?app_assoc; reflexivity | reflexivity]).
Qed.

Lemma success_toast_only_after_mutation_witness :
  let out := click dropdownList ListingActions.onClickHandlers
               (Some (VNum 7)) MutationRejects 0 (initial dropdownList) in
  snd out = Threw /\
  trace (fst out)
  = [ EvLoading [Some true; Some false; Some false; Some false];
      EvMutate (VNum 7) "publish";
      EvLoading [Some false; Some false; Some false; Some false] ].
Proof.
  intros out.
  destruct (success_toast_only_after_mutation 0 "publish"
              "Property published successfully" (Some (VNum 7)) MutationRejects
              (initial dropdownList)
              (or_introl (conj eq_refl (conj eq_refl eq_refl))))
    as (l1 & l2 & _ & Hc).
  split; [exact Hc | reflexivity].
Defined.

(** X15. The modal state changes through one entry only. In the row
    dropdown "View details" (index 2) opens the details modal; in the
    details-modal dropdown "Edit" (index 2) opens the edit modal when the
    [setOpenModal] prop was passed and does nothing when it was not; these
    two show no spinner and add nothing to the trace. No other click, and no
    click on an index without entry, changes the modal state. *)
Theorem modal_opens_from_one_entry (c : Component) (data : option Val)
    (m : Mutation) (idx : nat) (v : View) :
  let out := click (items c) (handlers c) data m idx v in
  openModal (fst out)
  = (if decide (idx = 2) then
       match c with
       | RowDropdown => Details
       | DetailsDropdown true => Edit
       | DetailsDropdown false => openModal v
       end
     else openModal v) /\
  (idx = 2 -> trace (fst out) = trace v /\
              loadingStates (fst out) = loadingStates v /\
              snd out = Returned) /\
  (items c !! idx = None -> out = (v, Returned)).
Proof.
  cbv zeta. unfold click, handleItemClick.
  destruct c as [|has]; simpl;
    do 5 (try destruct idx as [|idx]); simpl;
    try (destruct data as [id|]; [destruct m|]; simpl);
    try destruct has; simpl;
    (split; [reflexivity|]; split; [intros H; try discriminate H; repeat split|]);
    intros H; try discriminate H; reflexivity.
Qed.

End ClickFacts.

(** ** OTP and password handlers at the edges *)

Module EdgeFacts.
Import Auth Machine.

Section WithCodec.
Context {codec : JsonCodec}.

(** X16. An OTP verification the API accepts while no user is signed in
    (the user cell is null or undefined) still writes a "current user": an
    object with [otpVerified] true and no other field. It goes to state and
    to storage, the token key is not written, and when a token is still
    stored a later page load restores that user, with no role. *)
Theorem otp_without_user (L : JsonLaws codec) (otp email : Val)
    (res : option ApiResponse) (w : World) :
  truthy otp = true -> truthy email = true ->
  truthy (res_status res) = true ->
  AuthState.user (auth w) = Null \/ AuthState.user (auth w) = Undefined ->
  let w1 := fst (handleVerifyOtp otp email (Resolves res) w) in
  let bare := CurrentUser.with_otpVerified (VBool true) CurrentUser.empty in
  AuthState.user (auth w1) = Obj bare /\
  CurrentUser.role bare = VUndefined /\
  CurrentUser.userId bare = VUndefined /\
  getItem KEY_USER w1 = Some (stringify_user bare) /\
  getItem KEY_TOKEN w1 = getItem KEY_TOKEN w /\
  AuthState.token (auth w1) = AuthState.token (auth w) /\
  forall t r,
    getItem KEY_TOKEN w = Some (stringify_token t) ->
    fetch_throws r = true ->
    AuthState.user (auth (reload r w1)) = Obj bare /\
    AuthState.role (auth (reload r w1)) = VUndefined.
Proof.
  intros Ho He Hs Hu w1 bare.
  assert (CurrentUser.spread (AuthState.user (auth w)) = CurrentUser.empty) as Hsp
    by (destruct Hu as [-> | ->]; reflexivity).
  subst w1. rewrite (LifecycleFacts.handleVerifyOtp_accepted otp email res w Ho He Hs).
  rewrite Hsp. fold bare. simpl fst.
  assert (getItem KEY_USER
            (setIsLoadingAuth false
               (navigate "/dashboard"
                  (toast Success
                     ["OTP verified successfully. Redirecting to dashboard..."]
                     (setUser (Obj bare)
                        (setItem KEY_USER (stringify_user bare)
                           (call (VerifyOtp otp email) (setIsLoadingAuth true w)))))))
          = Some (stringify_user bare)) as Hk
    by (unfold getItem; simpl; apply lookup_insert_eq).
  assert (forall w', getItem KEY_TOKEN
            (setIsLoadingAuth false
               (navigate "/dashboard"
                  (toast Success
                     ["OTP verified successfully. Redirecting to dashboard..."]
                     (setUser (Obj bare)
                        (setItem KEY_USER (stringify_user bare)
                           (call (VerifyOtp otp email) (setIsLoadingAuth true w')))))))
          = getItem KEY_TOKEN w') as Ht.
  { intros w'. unfold getItem. simpl.
    now rewrite lookup_insert_ne by apply SessionFacts.keys_differ. }
  split; [reflexivity|]. split; [reflexivity|]. split; [reflexivity|].
  split; [exact Hk|]. split; [apply Ht|]. split; [reflexivity|].
  intros t r Htk Hr. unfold reload.
  rewrite (SessionFacts.fetchUser_failed r _ Hr).
  rewrite (SessionFacts.fetchUser_catch_restores L bare t);
    [split; reflexivity | exact Hk | rewrite <- Htk; apply Ht].
Qed.

(** X17. The OTP-resend and password handlers never touch the session:
    user, token, role and sessionStorage are as before, whatever the
    arguments and whatever the API answers. Resending never navigates; the
    forgot-password handler navigates, to "/change-password", exactly when
    its call is accepted, and the reset handler, to
    "/change-password/success", likewise. *)
Theorem password_handlers_leave_session (r : ApiResult) (w : World) :
  let same w' :=
    AuthState.user (auth w') = AuthState.user (auth w) /\
    AuthState.token (auth w') = AuthState.token (auth w) /\
    AuthState.role (auth w') = AuthState.role (auth w) /\
    sessionStorage w' = sessionStorage w in
  let accepted := negb (login_fails r) in
  (forall email,
      same (handleResendOtp email r w) /\
      navigations (trace (handleResendOtp email r w)) = navigations (trace w)) /\
  (forall email,
      same (handleForgotPassword email r w) /\
      navigations (trace (handleForgotPassword email r w))
      = (navigations (trace w)
           ++ if truthy email && accepted then ["/change-password"] else [])%list) /\
  (forall email password otp,
      same (handleResetPassword email password otp r w) /\
      navigations (trace (handleResetPassword email password otp r w))
      = (navigations (trace w)
           ++ if truthy email && truthy password && truthy otp && accepted
              then ["/change-password/success"] else [])%list).
Proof.
  cbv zeta. split; [|split].
  - intros email. unfold handleResendOtp, settled_error.
    destruct (truthy email); simpl; [|repeat split].
    destruct r as [e|res]; simpl;
      [|destruct (negb (truthy (res_status res)))]; simpl;
      (split; [repeat split|]);
      unfold navigations; rewrite ?omap_app; simpl; now rewrite ?app_nil_r.
  - intros email. unfold handleForgotPassword, settled_error.
    destruct (truthy email); simpl; [|repeat split; now rewrite app_nil_r].
    destruct r as [e|res]; simpl;
      [|destruct (negb (truthy (res_status res)))]; simpl;
      (split; [repeat split|]);
      unfold navigations; rewrite ?omap_app; simpl; now rewrite ?app_nil_r.
  - intros email password otp. unfold handleResetPassword, settled_error.
    destruct (truthy email); simpl; [|repeat split; now rewrite app_nil_r].
    destruct (truthy password); simpl; [|repeat split; now rewrite app_nil_r].
    destruct (truthy otp); simpl; [|repeat split; now rewrite app_nil_r].
    destruct r as [e|res]; simpl;
      [|destruct (negb (truthy (res_status res)))]; simpl;
      (split; [repeat split|]);
      unfold navigations; rewrite ?omap_app; simpl; now rewrite ?app_nil_r.
Qed.

End WithCodec.

Lemma otp_without_user_witness :
  let w := mkWorld (AuthState.mk Null VNull VNull false false)
             (sessionStorage signed_in) [] in
  let w1 := fst (handleVerifyOtp (codec := FieldCodec.codec) (VNum 1234)
                   (VStr "ada@example.com")
                   (Resolves (Some (mkApiResponse (VBool true) None None))) w) in
  AuthState.user (auth w1)
  = Obj (CurrentUser.with_otpVerified (VBool true) CurrentUser.empty) /\
  AuthState.role (auth (reload (codec := FieldCodec.codec)
                          (Rejects (mkApiError None)) w1)) = VUndefined.
Proof.
  intros w w1.
  destruct (otp_without_user (codec := FieldCodec.codec) FieldCodecFacts.laws
              (VNum 1234) (VStr "ada@example.com")
              (Some (mkApiResponse (VBool true) None None)) w
              eq_refl eq_refl eq_refl (or_introl eq_refl))
    as (Hu & _ & _ & _ & _ & _ & Hre).
  split; [exact Hu|].
  exact (proj2 (Hre "tok-1" (Rejects (mkApiError None)) eq_refl eq_refl)).
Defined.

End EdgeFacts.
